(** * TaiwanCalendar: the crawler and the CSV-to-JSON converter

    A shallow embedding of [src/converter.py] (class [CalendarConverter]) and
    [src/crawler.py] (class [TaiwanCalendarCrawler]), and the properties the
    specification states about them.

    Python [str] values are sequences of Unicode code points, so a string is a
    [list N].  The Unicode character database, pandas, BeautifulSoup, urllib
    and the HTTP session are libraries outside the repository: the parts of
    them the code calls are taken as parameters (the classes [Unicode],
    [Pandas] and [WebLibs], the [network] of the crawler); everything the
    repository itself computes is defined here. *)

From Stdlib Require Import ZArith NArith Lia Bool DecimalN.
From stdpp Require Import base decidable option list strings gmap.

Local Open Scope N_scope.

(** ** Python strings *)

Abbreviation pystr := (list N).

(** Literals are written as UTF-8 text and decoded to code points. *)
Definition utf8_cont (b : N) : N := N.land b 0x3F.

Fixpoint utf8_decode (bs : list N) : list N :=
  match bs with
  | [] => []
  | b :: r =>
      if b <? 0x80 then b :: utf8_decode r
      else if b <? 0xE0 then
        match r with
        | b1 :: r' => (N.land b 0x1F * 64 + utf8_cont b1) :: utf8_decode r'
        | _ => []
        end
      else if b <? 0xF0 then
        match r with
        | b1 :: b2 :: r' =>
            (N.land b 0x0F * 4096 + utf8_cont b1 * 64 + utf8_cont b2) :: utf8_decode r'
        | _ => []
        end
      else
        match r with
        | b1 :: b2 :: b3 :: r' =>
            (N.land b 0x07 * 262144 + utf8_cont b1 * 4096 + utf8_cont b2 * 64 + utf8_cont b3)
              :: utf8_decode r'
        | _ => []
        end
  end.

Fixpoint string_bytes (s : string) : list N :=
  match s with
  | EmptyString => []
  | String a r => Ascii.N_of_ascii a :: string_bytes r
  end.

Definition py (s : string) : list N := utf8_decode (string_bytes s).

(** [str.isspace] of one code point: the white space [str.strip] removes. *)
Definition isspace (c : N) : bool :=
  ((0x09 <=? c) && (c <=? 0x0D)) || ((0x1C <=? c) && (c <=? 0x20))
  || (c =? 0x85) || (c =? 0xA0) || (c =? 0x1680)
  || ((0x2000 <=? c) && (c <=? 0x200A))
  || (c =? 0x2028) || (c =? 0x2029) || (c =? 0x202F) || (c =? 0x205F) || (c =? 0x3000).

Definition ascii_isdigit (c : N) : bool := (48 <=? c) && (c <=? 57).
Definition ascii_isupper (c : N) : bool := (65 <=? c) && (c <=? 90).
Definition ascii_islower (c : N) : bool := (97 <=? c) && (c <=? 122).
Definition ascii_isalnum (c : N) : bool :=
  ascii_isdigit c || ascii_isupper c || ascii_islower c.
Definition ascii_lower (c : N) : N := if ascii_isupper c then c + 32 else c.
Definition ascii_digit (c : N) : option N :=
  if ascii_isdigit c then Some (c - 48) else None.

(** CJK unified ideographs: letters without case, none of them a decimal
    digit. *)
Definition ideograph (c : N) : bool := (0x4E00 <=? c) && (c <=? 0x9FA5).

(** The code points the file names and cells of the calendar are made of. *)
Definition simple (c : N) : bool := (c <? 128) || ideograph c.

(** The Unicode character database behind [str.isalnum], [str.lower], the
    [\d] class of [re] and [int].  Only its restriction to ASCII and to
    ideographs is fixed here; the rest of the tables is a parameter. *)
Class Unicode := {
  isalnum : N -> bool;
  decimal : N -> option N;
  lower : list N -> list N;
  isalnum_simple :
    forall c, simple c = true -> isalnum c = ascii_isalnum c || ideograph c;
  decimal_simple : forall c, simple c = true -> decimal c = ascii_digit c;
  decimal_le_9 : forall c d, decimal c = Some d -> d <= 9;
  lower_simple :
    forall s, forallb simple s = true -> lower s = map ascii_lower s
}.

Module Str.

Definition eqb (s t : list N) : bool := bool_decide (s = t).

(** [s in words] for a list of strings. *)
Definition mem (s : list N) (words : list (list N)) : bool :=
  bool_decide (s ∈ words).

Fixpoint drop_while (f : N -> bool) (s : list N) : list N :=
  match s with
  | [] => []
  | a :: r => if f a then drop_while f r else s
  end.

Definition lstrip (s : list N) : list N := drop_while isspace s.
Definition rstrip (s : list N) : list N := rev (drop_while isspace (rev s)).
Definition strip (s : list N) : list N := rstrip (lstrip s).

Fixpoint startswith (s p : list N) : bool :=
  match p, s with
  | [], _ => true
  | a :: p', b :: s' => (a =? b) && startswith s' p'
  | _ :: _, [] => false
  end.

Definition endswith (s p : list N) : bool := startswith (rev s) (rev p).

(** [needle in hay] for two strings. *)
Fixpoint contains (needle hay : list N) : bool :=
  startswith hay needle
  || match hay with
     | [] => false
     | _ :: hay' => contains needle hay'
     end.

(** [s.rfind(c)], -1 when [c] does not occur. *)
Fixpoint rfind_from (c : N) (s : list N) (i : Z) (last : Z) : Z :=
  match s with
  | [] => last
  | a :: s' => rfind_from c s' (i + 1)%Z (if a =? c then i else last)
  end.

Definition rfind (c : N) (s : list N) : Z := rfind_from c s 0%Z (-1)%Z.

Fixpoint digits_of_uint (u : Decimal.uint) : list N :=
  match u with
  | Decimal.Nil => []
  | Decimal.D0 u => 48 :: digits_of_uint u
  | Decimal.D1 u => 49 :: digits_of_uint u
  | Decimal.D2 u => 50 :: digits_of_uint u
  | Decimal.D3 u => 51 :: digits_of_uint u
  | Decimal.D4 u => 52 :: digits_of_uint u
  | Decimal.D5 u => 53 :: digits_of_uint u
  | Decimal.D6 u => 54 :: digits_of_uint u
  | Decimal.D7 u => 55 :: digits_of_uint u
  | Decimal.D8 u => 56 :: digits_of_uint u
  | Decimal.D9 u => 57 :: digits_of_uint u
  end.

(** [str(n)] of an integer. *)
Definition of_N (n : N) : list N := digits_of_uint (N.to_uint n).

Definition of_Z (z : Z) : list N :=
  match z with
  | Z0 => of_N 0
  | Zpos p => of_N (Npos p)
  | Zneg p => 45 :: of_N (Npos p)
  end.

End Str.

(** ** [os.path] (posixpath) *)

Module os_path.

Definition sep : N := 47.
Definition extsep : N := 46.

Definition basename (p : list N) : list N :=
  drop (Z.to_nat (Str.rfind sep p + 1)) p.

(** [genericpath._splitext]: the extension starts at the last dot of the
    last component, unless that component has only dots before it. *)
Definition splitext (p : list N) : list N * list N :=
  let sepIndex := Str.rfind sep p in
  let dotIndex := Str.rfind extsep p in
  if (sepIndex <? dotIndex)%Z then
    let stem :=
      take (Z.to_nat (dotIndex - (sepIndex + 1))) (drop (Z.to_nat (sepIndex + 1)) p) in
    if existsb (fun c => negb (c =? extsep)) stem
    then (take (Z.to_nat dotIndex) p, drop (Z.to_nat dotIndex) p)
    else (p, [])
  else (p, []).

Definition join (a b : list N) : list N :=
  if Str.startswith b [sep] then b
  else if Str.eqb a [] || Str.endswith a [sep] then a ++ b
  else a ++ sep :: b.

End os_path.

(** ** [datetime.strptime] and [strftime] for the directives the code uses *)

Module datetime.

Record date := mkdate { year : N; month : N; day : N }.

(** A format is compiled to a sequence of regular-expression items: [%Y] is
    [\d\d\d\d], [%m] is [1[0-2]|0[1-9]|[1-9]], [%d] is
    [3[0-1]|[1-2]\d|0[1-9]|[1-9]| [1-9]], any other character is itself.
    The source's formats use no other directive. *)
Inductive item := Year | Month | Day | Lit (c : N) | Unsupported.

Definition directive (k : N) : item :=
  if k =? 89 then Year else if k =? 109 then Month else if k =? 100 then Day
  else if k =? 37 then Lit 37 else Unsupported.

Fixpoint compile (fmt : list N) : list item :=
  match fmt with
  | [] => []
  | c :: r =>
      if c =? 37 then
        match r with
        | k :: r' => directive k :: compile r'
        | [] => [Unsupported]
        end
      else Lit c :: compile r
  end.

Definition between (lo hi c : N) : bool := (lo <=? c) && (c <=? hi).

Section Matching.
Context `{Unicode}.

(** The ways one item can match a prefix of [s], in the order the regular
    expression tries them, each with the value read and the text left. *)
Definition match_year (s : list N) : list (N * list N) :=
  match s with
  | a :: b :: c :: e :: r =>
      match decimal a, decimal b, decimal c, decimal e with
      | Some x, Some y, Some z, Some w => [(1000 * x + 100 * y + 10 * z + w, r)]
      | _, _, _, _ => []
      end
  | _ => []
  end.

Definition match_month (s : list N) : list (N * list N) :=
  match s with
  | a :: r =>
      match r with
      | b :: r' =>
          (if (a =? 49) && between 48 50 b then [(10 + (b - 48), r')] else [])
          ++ (if (a =? 48) && between 49 57 b then [(b - 48, r')] else [])
      | [] => []
      end
      ++ (if between 49 57 a then [(a - 48, r)] else [])
  | [] => []
  end.

Definition match_day (s : list N) : list (N * list N) :=
  match s with
  | a :: r =>
      match r with
      | b :: r' =>
          (if (a =? 51) && between 48 49 b then [(30 + (b - 48), r')] else [])
          ++ (if between 49 50 a
              then match decimal b with
                   | Some v => [(10 * (a - 48) + v, r')]
                   | None => []
                   end
              else [])
          ++ (if (a =? 48) && between 49 57 b then [(b - 48, r')] else [])
      | [] => []
      end
      ++ (if between 49 57 a then [(a - 48, r)] else [])
      ++ match r with
         | b :: r' => if (a =? 32) && between 49 57 b then [(b - 48, r')] else []
         | [] => []
         end
  | [] => []
  end.

Fixpoint first_success {A B : Type} (k : A -> option B) (l : list A) : option B :=
  match l with
  | [] => None
  | x :: l' => match k x with Some y => Some y | None => first_success k l' end
  end.

(** [re.match]: the first way, in backtracking order, to match all items. *)
Fixpoint regex_match (items : list item) (s : list N) (acc : date)
  : option (date * list N) :=
  match items with
  | [] => Some (acc, s)
  | it :: items' =>
      match it with
      | Year =>
          first_success
            (fun vr => regex_match items' (snd vr) (mkdate (fst vr) (month acc) (day acc)))
            (match_year s)
      | Month =>
          first_success
            (fun vr => regex_match items' (snd vr) (mkdate (year acc) (fst vr) (day acc)))
            (match_month s)
      | Day =>
          first_success
            (fun vr => regex_match items' (snd vr) (mkdate (year acc) (month acc) (fst vr)))
            (match_day s)
      | Lit c =>
          match s with
          | a :: r => if a =? c then regex_match items' r acc else None
          | [] => None
          end
      | Unsupported => None
      end
  end.

End Matching.

Definition is_leap (y : N) : bool :=
  ((y mod 4 =? 0) && negb (y mod 100 =? 0)) || (y mod 400 =? 0).

Definition days_in_month (y m : N) : N :=
  if m =? 2 then (if is_leap y then 29 else 28)
  else if (m =? 4) || (m =? 6) || (m =? 9) || (m =? 11) then 30
  else 31.

(** The check of the [date] constructor. *)
Definition valid (dt : date) : bool :=
  between 1 9999 (year dt) && between 1 12 (month dt)
  && between 1 (days_in_month (year dt) (month dt)) (day dt).

(** [datetime.strptime(s, fmt)]; [None] stands for its [ValueError]: no
    match, unconverted data left, or a date that does not exist. *)
Definition strptime `{Unicode} (s fmt : list N) : option date :=
  match regex_match (compile fmt) s (mkdate 1900 1 1) with
  | Some (dt, []) => if valid dt then Some dt else None
  | _ => None
  end.

Definition pad2 (n : N) : list N := [48 + n / 10 mod 10; 48 + n mod 10].

(** The four-digit form of a year. *)
Definition pad4 (n : N) : list N :=
  [48 + n / 1000 mod 10; 48 + n / 100 mod 10; 48 + n / 10 mod 10; 48 + n mod 10].

(** [dt.strftime('%Y-%m-%d')].  CPython hands the format to the C library,
    and glibc prints [%Y] as the decimal digits of the year without padding
    (999 for the year 999), the month and the day with two digits. *)
Definition strftime_ymd (dt : date) : list N :=
  Str.of_N (year dt) ++ 45 :: pad2 (month dt) ++ 45 :: pad2 (day dt).

End datetime.

(** ** Values of table cells *)

(** The scalars [pandas.read_csv] puts in a cell.  A float other than NaN
    is carried by its [str] form, the only thing the code reads of it. *)
Inductive pyval :=
| VStr (s : list N)
| VInt (z : Z)
| VBool (b : bool)
| VFloat (repr : list N)
| VNaN.

(** [str(v)] *)
Definition py_str (v : pyval) : list N :=
  match v with
  | VStr s => s
  | VInt z => Str.of_Z z
  | VBool true => py "True"
  | VBool false => py "False"
  | VFloat repr => repr
  | VNaN => py "nan"
  end.

(** [pd.notna(v)] *)
Definition notna (v : pyval) : bool :=
  match v with VNaN => false | _ => true end.

(** pandas and the numpy beneath it: [to_datetime_ymd s] is
    [pd.to_datetime(s).strftime('%Y-%m-%d')], the flexible parser, [None]
    when either call raises; [float_str z] is [str] of the float an integer
    cell becomes when its row is cast to [float64], which is the integer
    followed by [.0] as long as the float holds the integer exactly and is
    not printed with an exponent. *)
Class Pandas := {
  to_datetime_ymd : list N -> option (list N);
  float_str : Z -> list N;
  float_str_exact :
    forall z, (Z.abs z <= 2 ^ 53)%Z -> float_str z = Str.of_Z z ++ py ".0"
}.

(** ** [src/converter.py] *)

Module CalendarConverter.

Record DayRecord := mkDayRecord {
  date : list N;
  week : list N;
  isHoliday : bool;
  description : list N
}.

(** The dtype of a column as [read_csv] infers it: integers, floats (also
    an empty column, and integers with a missing cell), booleans, and
    [object] for text and for anything mixed. *)
Inductive dtype := int64 | float64 | bool_ | object_.

#[global] Instance dtype_eq_dec : EqDecision dtype.
Proof. solve_decision. Defined.

(** A [DataFrame]: the header, the dtype of each column, and the rows with
    their cells as the columns store them. *)
Record DataFrame := mkDataFrame {
  columns : list (list N);
  dtypes : list dtype;
  rows : list (list pyval)
}.

Definition dtype_eqb (a b : dtype) : bool :=
  match a, b with
  | int64, int64 | float64, float64 | bool_, bool_ | object_, object_ => true
  | _, _ => false
  end.

Definition is_number (t : dtype) : bool :=
  match t with int64 | float64 => true | _ => false end.

(** [find_common_type] of pandas on these dtypes: the dtype all columns
    share; [float64] for integers together with floats; [object] otherwise
    (booleans are not mixed with numbers). *)
Definition find_common_type (types : list dtype) : dtype :=
  match types with
  | [] => object_
  | first :: _ =>
      if forallb (dtype_eqb first) types then first
      else if forallb is_number types then float64
      else object_
  end.

(** The cast of a cell to the dtype of its row: an integer becomes the
    float of the same value, every other cell keeps its value. *)
Definition astype `{Pandas} (t : dtype) (v : pyval) : pyval :=
  match t, v with
  | float64, VInt z => VFloat (float_str z)
  | _, _ => v
  end.

(** [df.iterrows()]: every row comes as a Series of one dtype, the common
    type of the columns, its cells cast to it. *)
Definition iterrows `{Pandas} (df : DataFrame) : list (list pyval) :=
  map (map (astype (find_common_type (dtypes df)))) (rows df).

Definition df_empty (df : DataFrame) : bool :=
  (length (columns df) =? 0)%nat || (length (rows df) =? 0)%nat.

Definition validate_csv_structure (df : DataFrame) : bool :=
  if df_empty df then false
  else if (length (columns df) <? 4)%nat then false
  else true.

Definition date_formats : list (list N) :=
  [py "%Y/%m/%d"; py "%Y-%m-%d"; py "%Y年%m月%d日"; py "%m/%d/%Y"; py "%d/%m/%Y"].

Definition holiday_words : list (list N) := [py "true"; py "是"; py "放假"; py "holiday"].
Definition workday_words : list (list N) := [py "false"; py "否"; py "上班"; py "work"].

(** The marker [年] of the file names. *)
Definition year_marker : N := 0x5E74.

Definition convert_roc_to_western_year (roc_year : Z) : Z :=
  if (roc_year <=? 0)%Z then 0%Z else (roc_year + 1911)%Z.

Section Converters.
Context `{Unicode} `{Pandas}.

(** The loop over [date_formats]: the first format that parses wins. *)
Fixpoint try_formats (s : list N) (fmts : list (list N)) : option datetime.date :=
  match fmts with
  | [] => None
  | fmt :: fmts' =>
      match datetime.strptime s fmt with
      | Some dt => Some dt
      | None => try_formats s fmts'
      end
  end.

Definition convert_date_format (date_str : pyval) : list N :=
  let s := Str.strip (py_str date_str) in
  match try_formats s date_formats with
  | Some dt => datetime.strftime_ymd dt
  | None =>
      match to_datetime_ymd s with
      | Some iso => iso
      | None => s
      end
  end.

Definition convert_holiday_flag (flag_value : pyval) : bool :=
  let flag_str := Str.strip (py_str flag_value) in
  if Str.eqb flag_str (py "2") then true
  else if Str.eqb flag_str (py "0") then false
  else if Str.mem (lower flag_str) holiday_words then true
  else if Str.mem (lower flag_str) workday_words then false
  else false.

(** The pattern [(\d{3})年] at the start of [s], and the [int] of its group. *)
Definition match_roc_year (s : list N) : option Z :=
  match s with
  | a :: b :: c :: y :: _ =>
      match decimal a, decimal b, decimal c with
      | Some x, Some x', Some x'' =>
          if y =? year_marker then Some (Z.of_N (100 * x + 10 * x' + x'')) else None
      | _, _, _ => None
      end
  | _ => None
  end.

(** [re.search]: the match at the leftmost position that has one. *)
Fixpoint search_roc_year (s : list N) : option Z :=
  match match_roc_year s with
  | Some v => Some v
  | None =>
      match s with
      | [] => None
      | _ :: r => search_roc_year r
      end
  end.

Definition extract_roc_year_from_filename (filename : list N) : Z :=
  match search_roc_year filename with
  | Some roc_year => roc_year
  | None => 0%Z
  end.

Definition generate_json_filename (csv_file_path : list N) : list N :=
  let filename := os_path.basename csv_file_path in
  let roc_year := extract_roc_year_from_filename filename in
  if (0 <? roc_year)%Z then
    Str.of_Z (convert_roc_to_western_year roc_year) ++ py ".json"
  else
    fst (os_path.splitext filename) ++ py ".json".

(** [row.iloc[i] if len(row) > i else default] *)
Definition cell (i : nat) (default : pyval) (row : list pyval) : pyval :=
  if (i <? length row)%nat then nth i row default else default.

(** The record the body of the per-row [try] builds. *)
Definition row_record (row : list pyval) : DayRecord :=
  let date_value := cell 0 (VStr []) row in
  let week_value := cell 1 (VStr []) row in
  let holiday_flag := cell 2 (VInt 0) row in
  let description := cell 3 (VStr []) row in
  {| date := convert_date_format date_value;
     week := if notna week_value then Str.strip (py_str week_value) else [];
     isHoliday := convert_holiday_flag holiday_flag;
     description := if notna description then Str.strip (py_str description) else [] |}.

Section Rows.
(** The outcome of the per-row [try] block: a record, or [None] when the
    block raises.  On the scalars of [pyval] the block of the source,
    [row_record], never raises; the handler is specified for every outcome. *)
Variable row_try : list pyval -> option DayRecord.

(** The loop over [df.iterrows()]: a row whose block raises is skipped. *)
Fixpoint convert_rows (rs : list (list pyval)) (json_data : list DayRecord)
  : list DayRecord :=
  match rs with
  | [] => json_data
  | row :: rs' =>
      match row_try row with
      | Some record => convert_rows rs' (json_data ++ [record])
      | None => convert_rows rs' json_data
      end
  end.

(** [read_csv_file] is the table pandas reads at a path (empty when it
    cannot be read); [docs] maps the paths of the output directory to the
    records written there. *)
Definition convert_csv_to_json_with
    (read_csv_file : list N -> DataFrame) (docs_dir file_path : list N)
    (docs : gmap (list N) (list DayRecord)) : bool * gmap (list N) (list DayRecord) :=
  let df := read_csv_file file_path in
  if negb (validate_csv_structure df) then (false, docs)
  else
    let json_data := convert_rows (iterrows df) [] in
    match json_data with
    | [] => (false, docs)
    | _ :: _ =>
        let json_path := os_path.join docs_dir (generate_json_filename file_path) in
        (true, <[json_path := json_data]> docs)
    end.

End Rows.

Definition convert_csv_to_json :=
  convert_csv_to_json_with (fun row => Some (row_record row)).

End Converters.

Section Batch.
Context `{Unicode} `{Pandas}.

(** The loop of [get_csv_files] over [os.listdir(origin_dir)]. *)
Fixpoint csv_paths (origin_dir : list N) (names : list (list N)) : list (list N) :=
  match names with
  | [] => []
  | filename :: rest =>
      if Str.endswith (lower filename) (py ".csv")
      then os_path.join origin_dir filename :: csv_paths origin_dir rest
      else csv_paths origin_dir rest
  end.

(** [listing] is what [os.listdir(origin_dir)] returns, [None] when the
    directory does not exist. *)
Definition get_csv_files (origin_dir : list N) (listing : option (list (list N)))
  : list (list N) :=
  match listing with
  | None => []
  | Some names => csv_paths origin_dir names
  end.

(** The loop of [convert_all] over the files. *)
Fixpoint convert_files (read_csv_file : list N -> DataFrame) (docs_dir : list N)
    (csv_files : list (list N)) (success_count : nat)
    (docs : gmap (list N) (list DayRecord)) : nat * gmap (list N) (list DayRecord) :=
  match csv_files with
  | [] => (success_count, docs)
  | csv_file :: rest =>
      let '(ok, docs1) := convert_csv_to_json read_csv_file docs_dir csv_file docs in
      convert_files read_csv_file docs_dir rest
        (if ok then (success_count + 1)%nat else success_count) docs1
  end.

Definition convert_all (read_csv_file : list N -> DataFrame) (origin_dir docs_dir : list N)
    (listing : option (list (list N))) (docs : gmap (list N) (list DayRecord))
  : (nat * nat) * gmap (list N) (list DayRecord) :=
  match get_csv_files origin_dir listing with
  | [] => ((0, 0)%nat, docs)
  | csv_files =>
      let '(success_count, docs') :=
        convert_files read_csv_file docs_dir csv_files 0%nat docs in
      ((success_count, length csv_files), docs')
  end.

End Batch.

End CalendarConverter.

(** ** [src/crawler.py] *)

Module TaiwanCalendarCrawler.

(** What the code reads of a [<span>]: whether [find_parent('button')]
    finds a button, and [get_text(strip=True)]. *)
Record span := mkspan { in_button : bool; span_text : list N }.

(** What the code reads of a [<li class="resource-item">]: the [href] of its
    first [<a>] ([None] without an [<a>] or without the attribute) and its
    [<span>] elements in document order. *)
Record li_element := mkli { href : option (list N); spans : list span }.

(** BeautifulSoup and urllib: the resource items of a page; [urljoin], with
    [None] when it raises (the [ValueError] of a link it cannot split); and
    the [name] parameter in the query of a link: [None] when [urlparse]
    raises, [Some None] when the query has no such parameter, otherwise its
    first value. *)
Class WebLibs := {
  find_resource_items : list N -> list li_element;
  urljoin : list N -> list N -> option (list N);
  query_name : list N -> option (option (list N))
}.

(** One HTTP response: its text, the chunks [iter_content] yields, and
    whether the stream (or the write of a chunk) raises after them. *)
Record response := mkresponse {
  text : list N;
  chunks : list (list Byte.byte);
  broken : bool
}.

(** The network answers the n-th request of the run for a URL; [None] when
    [session.get] or [raise_for_status] raises. *)
Definition network := nat -> list N -> option response.

(** The staging directory, the number of requests sent and the seconds slept. *)
Record world := mkworld {
  files : gmap (list N) (list Byte.byte);
  requests : nat;
  slept : nat
}.

Definition sent (w : world) : world :=
  mkworld (files w) (S (requests w)) (slept w).

Definition sleep (seconds : nat) (w : world) : world :=
  mkworld (files w) (requests w) (slept w + seconds)%nat.

Definition exists_file (path : list N) (w : world) : bool :=
  bool_decide (is_Some (files w !! path)).

Definition write_file (path : list N) (content : list Byte.byte) (w : world) : world :=
  mkworld (<[path := content]> (files w)) (requests w) (slept w).

Definition remove_file (path : list N) (w : world) : world :=
  mkworld (delete path (files w)) (requests w) (slept w).

(** The characters the sanitizer keeps. *)
Definition keep_char `{Unicode} (c : N) : bool :=
  isalnum c || (c =? 32) || (c =? 45) || (c =? 95) || (c =? 46).

Definition safe_filename `{Unicode} (filename : list N) : list N :=
  let name := Str.rstrip (filter (fun c => keep_char c = true) filename) in
  if Str.endswith name (py ".csv") then name else name ++ py ".csv".

Definition file_path `{Unicode} (origin_dir filename : list N) : list N :=
  os_path.join origin_dir (safe_filename filename).

(** The first span outside a button whose text is neither empty nor [CSV]. *)
Fixpoint span_filename (all_spans : list span) : option (list N) :=
  match all_spans with
  | [] => None
  | sp :: rest =>
      if negb (in_button sp) && negb (Str.eqb (span_text sp) [])
         && negb (Str.eqb (span_text sp) (py "CSV"))
      then Some (span_text sp)
      else span_filename rest
  end.

Section Parsing.
Context `{WebLibs}.

(** The name of an item; [None] when [urlparse] raises, which happens only
    when no span gives the name. *)
Definition item_filename (link : list N) (all_spans : list span) (accepted : nat)
  : option (list N) :=
  match span_filename all_spans with
  | Some filename => Some filename
  | None =>
      match query_name link with
      | None => None
      | Some (Some filename) => Some filename
      | Some None => Some (py "calendar_" ++ Str.of_N (N.of_nat (accepted + 1)%nat))
      end
  end.

(** The link stored with an item; [None] when [urljoin] raises. *)
Definition full_link (target_url link : list N) : option (list N) :=
  if Str.startswith link (py "http") then Some link else urljoin target_url link.

(** The loop over the [li] elements, [resource_items] being the list built
    so far.  An element whose block raises is passed over by the handler
    ([except Exception: continue]) and the loop goes on. *)
Fixpoint parse_items (target_url : list N) (li_elements : list li_element)
    (resource_items : list (list N * list N)) : list (list N * list N) :=
  match li_elements with
  | [] => resource_items
  | li :: rest =>
      match href li with
      | Some link =>
          if Str.eqb link [] then parse_items target_url rest resource_items
          else
            match item_filename link (spans li) (length resource_items) with
            | Some filename =>
                if negb (Str.contains (py "Google") filename) then
                  match full_link target_url link with
                  | Some link' =>
                      parse_items target_url rest (resource_items ++ [(link', filename)])
                  | None => parse_items target_url rest resource_items
                  end
                else parse_items target_url rest resource_items
            | None => parse_items target_url rest resource_items
            end
      | None => parse_items target_url rest resource_items
      end
  end.

Definition parse_resource_items (target_url html_content : list N)
  : list (list N * list N) :=
  parse_items target_url (find_resource_items html_content) [].

End Parsing.

Section Fetching.
Context `{Unicode} `{WebLibs}.
Variable net : network.

(** [for attempt in range(max_retries)] with [remaining] iterations left. *)
Fixpoint fetch_attempts (url : list N) (max_retries remaining : nat) (w : world)
  : option (list N) * world :=
  match remaining with
  | O => (None, w)
  | S remaining' =>
      let attempt := (max_retries - remaining)%nat in
      match net (requests w) url with
      | Some r => (Some (text r), sent w)
      | None =>
          if (attempt <? max_retries - 1)%nat
          then fetch_attempts url max_retries remaining' (sleep 2 (sent w))
          else (None, sent w)
      end
  end.

Definition fetch_page_content (url : list N) (max_retries : nat) (w : world)
  : option (list N) * world :=
  fetch_attempts url max_retries max_retries w.

(** The body of the [try] of one download attempt: [true] when it reaches
    [return True], [false] when it raises.  The request may raise; the file
    is opened (the staging directory exists: the constructor makes it) and
    receives the chunks that arrive; the stream or a write may raise after
    them; a file left empty is removed and counts as a failure.  The content
    type only decides a log line. *)
Definition attempt_download (path url : list N) (w : world) : bool * world :=
  match net (requests w) url with
  | None => (false, sent w)
  | Some r =>
      let w1 := write_file path (concat (chunks r)) (sent w) in
      if broken r then (false, w1)
      else if (length (concat (chunks r)) =? 0)%nat then (false, remove_file path w1)
      else (true, w1)
  end.

(** The handler of a failed attempt removes what the attempt left. *)
Definition cleanup (path : list N) (w : world) : world :=
  if exists_file path w then remove_file path w else w.

(** The result is Python's: [Some true], [Some false], or [None] when the
    loop ends without a [return]. *)
Fixpoint download_attempts (path url : list N) (max_retries remaining : nat) (w : world)
  : option bool * world :=
  match remaining with
  | O => (None, w)
  | S remaining' =>
      let attempt := (max_retries - remaining)%nat in
      let '(ok, w1) := attempt_download path url w in
      if ok then (Some true, w1)
      else
        let w2 := cleanup path w1 in
        if (attempt <? max_retries - 1)%nat
        then download_attempts path url max_retries remaining' (sleep 3 w2)
        else (Some false, w2)
  end.

Definition download_file (origin_dir url filename : list N) (max_retries : nat) (w : world)
  : option bool * world :=
  let path := file_path origin_dir filename in
  if exists_file path w then (Some true, w)
  else download_attempts path url max_retries max_retries w.

(** Truth value of the result in [if self.download_file(...)]. *)
Definition truthy (r : option bool) : bool :=
  match r with Some true => true | _ => false end.

(** The loop [for i, (link, filename) in enumerate(resource_items, 1)]. *)
Fixpoint download_items (origin_dir : list N) (resource_items : list (list N * list N))
    (total_count i success_count : nat) (w : world) : (nat * nat) * world :=
  match resource_items with
  | [] => ((success_count, total_count), w)
  | (link, filename) :: rest =>
      let '(ok, w1) := download_file origin_dir link filename 3 w in
      let success_count' := if truthy ok then (success_count + 1)%nat else success_count in
      let w2 := if (i <? total_count)%nat then sleep 1 w1 else w1 in
      download_items origin_dir rest total_count (i + 1)%nat success_count' w2
  end.

Definition crawl (target_url origin_dir : list N) (w : world) : (nat * nat) * world :=
  let '(html_content, w1) := fetch_page_content target_url 3 w in
  match html_content with
  | None => ((0, 0)%nat, w1)
  | Some html =>
      if Str.eqb html [] then ((0, 0)%nat, w1)
      else
        match parse_resource_items target_url html with
        | [] => ((0, 0)%nat, w1)
        | resource_items =>
            download_items origin_dir resource_items (length resource_items) 1%nat 0%nat w1
        end
  end.

End Fetching.

End TaiwanCalendarCrawler.

(** ** [src/main.py] *)

Module TaiwanCalendarSystem.

Import CalendarConverter TaiwanCalendarCrawler.

(** The counters and the error list of [self.stats]; the two time stamps
    only feed the printed summary. *)
Record stats := mkstats {
  crawl_success_count : nat;
  crawl_total_count : nat;
  convert_success_count : nat;
  convert_total_count : nat;
  errors : list (list N)
}.

(** [self.stats] of a new system. *)
Definition initial_stats : stats := mkstats 0 0 0 0 [].

(** What [check_environment] finds: everything in place; a package missing
    or a directory that cannot be made; or an unexpected exception, with its
    message. *)
Inductive environment := EnvReady | EnvLacking | EnvFault (message : list N).

Definition add_error (message : list N) (st : stats) : stats :=
  mkstats (crawl_success_count st) (crawl_total_count st)
          (convert_success_count st) (convert_total_count st)
          (errors st ++ [message]).

Definition check_environment (env : environment) (st : stats) : bool * stats :=
  match env with
  | EnvReady => (true, st)
  | EnvLacking => (false, st)
  | EnvFault message => (false, add_error (py "環境檢查錯誤: " ++ message) st)
  end.

(** [summary['overall_success']] of [generate_summary]. *)
Definition overall_success (st : stats) : bool :=
  (length (errors st) =? 0)%nat
  && (0 <? crawl_success_count st)%nat
  && (0 <? convert_success_count st)%nat.

(** The state of a run: the staging directory and the network counters, and
    the output directory. *)
Record system := mksystem {
  staging : world;
  docs : gmap (list N) (list DayRecord)
}.

Section Run.
Context `{Unicode} `{Pandas} `{WebLibs}.
Variable net : network.
(** How the converter sees the staging directory the crawler wrote:
    [os.listdir] of it and the table pandas reads at a path. *)
Variable listdir : world -> option (list (list N)).
Variable read_csv_file : world -> list N -> DataFrame.

Definition target_url : list N := py "https://data.gov.tw/dataset/14718".

Definition execute_crawling (origin_dir : list N) (st : stats) (sys : system)
  : bool * stats * system :=
  let '((success_count, total_count), w) := crawl net target_url origin_dir (staging sys) in
  let st1 :=
    mkstats success_count total_count
            (convert_success_count st) (convert_total_count st) (errors st) in
  if (0 <? success_count)%nat
  then (true, st1, mksystem w (docs sys))
  else (false, add_error (py "爬蟲階段：沒有成功下載任何檔案") st1, mksystem w (docs sys)).

Definition execute_conversion (origin_dir docs_dir : list N) (st : stats) (sys : system)
  : bool * stats * system :=
  let '((success_count, total_count), d) :=
    convert_all (read_csv_file (staging sys)) origin_dir docs_dir
                (listdir (staging sys)) (docs sys) in
  let st1 :=
    mkstats (crawl_success_count st) (crawl_total_count st)
            success_count total_count (errors st) in
  if (0 <? success_count)%nat
  then (true, st1, mksystem (staging sys) d)
  else (false, add_error (py "轉換階段：沒有成功轉換任何檔案") st1, mksystem (staging sys) d).

Definition run (env : environment) (origin_dir docs_dir : list N) (st : stats)
    (sys : system) : bool * stats * system :=
  let '(env_ok, st0) := check_environment env st in
  if negb env_ok then (false, st0, sys)
  else
    let '(crawl_success, st1, sys1) := execute_crawling origin_dir st0 sys in
    let '(convert_success, st2, sys2) := execute_conversion origin_dir docs_dir st1 sys1 in
    (overall_success st2, st2, sys2).

End Run.

End TaiwanCalendarSystem.

(** * Vocabulary of the properties *)

Import CalendarConverter TaiwanCalendarCrawler.

(** [year_token pre s v]: right after the prefix [pre], [s] has three digits
    of value [v] and then the year marker. *)
Definition year_token `{Unicode} (pre s : list N) (v : Z) : Prop :=
  exists a b c x y z post,
    s = pre ++ a :: b :: c :: year_marker :: post
    /\ decimal a = Some x /\ decimal b = Some y /\ decimal c = Some z
    /\ v = Z.of_N (100 * x + 10 * y + z).

(** A span a name can be taken from: outside a button, with a text that is
    neither empty nor the caption [CSV]. *)
Definition eligible (sp : span) : Prop :=
  in_button sp = false /\ span_text sp <> [] /\ span_text sp <> py "CSV".

Section Downloads.
Context `{Unicode} `{WebLibs}.
Variable net : network.

(** The downloads of [crawl] one after the other: every item is tried, in
    the order of the list, with a second of pause after each but the last;
    the results are kept in that order. *)
Fixpoint download_each (origin_dir : list N) (resource_items : list (list N * list N))
    (total_count i : nat) (w : world) : list (option bool) * world :=
  match resource_items with
  | [] => ([], w)
  | (link, filename) :: rest =>
      let result := download_file net origin_dir link filename 3 w in
      let w2 := if (i <? total_count)%nat then sleep 1 (snd result) else snd result in
      let others := download_each origin_dir rest total_count (S i) w2 in
      (fst result :: fst others, snd others)
  end.

Definition successes (results : list (option bool)) : nat :=
  length (filter (fun r => truthy r = true) results).

End Downloads.

(** The element has a link to follow. *)
Definition has_link (li : li_element) : bool :=
  match href li with
  | Some link => negb (Str.eqb link [])
  | None => false
  end.

Section Tables.
Context `{Unicode} `{Pandas}.
Variable read_csv_file : list N -> DataFrame.

(** The records of the table of a file: one for each row, the row taken as
    [iterrows] gives it. *)
Definition table_records (csv_file : list N) : list DayRecord :=
  map row_record (iterrows (read_csv_file csv_file)).

(** The path a file is written to. *)
Definition json_path (docs_dir csv_file : list N) : list N :=
  os_path.join docs_dir (generate_json_filename csv_file).

(** The table of the file passes [validate_csv_structure]. *)
Definition accepted (csv_file : list N) : Prop :=
  validate_csv_structure (read_csv_file csv_file) = true.

#[global] Instance accepted_dec (csv_file : list N) : Decision (accepted csv_file).
Proof. unfold accepted. apply _. Defined.

End Tables.

(** ** Instances of the parameters, for the examples *)

Lemma ascii_digit_le_9 c d : ascii_digit c = Some d -> d <= 9.
Proof.
  unfold ascii_digit, ascii_isdigit.
  destruct (48 <=? c) eqn:H1; destruct (c <=? 57) eqn:H2; simpl; try discriminate.
  intros [= <-]. apply N.leb_le in H1, H2. lia.
Qed.

Lemma basic_isalnum c :
  simple c = true ->
  simple c && (ascii_isalnum c || ideograph c) = ascii_isalnum c || ideograph c.
Proof. intros Hc. rewrite Hc. reflexivity. Qed.

(** The character database cut down to ASCII and ideographs: every other
    code point is neither a letter nor a digit and has no case. *)
Definition basic_unicode : Unicode :=
  {| isalnum c := simple c && (ascii_isalnum c || ideograph c);
     decimal := ascii_digit;
     lower := map ascii_lower;
     isalnum_simple := basic_isalnum;
     decimal_simple := fun c _ => eq_refl;
     decimal_le_9 := ascii_digit_le_9;
     lower_simple := fun s _ => eq_refl |}.

(** A flexible parser that accepts nothing, and floats printed without
    exponent. *)
Definition no_pandas : Pandas :=
  {| to_datetime_ymd := fun _ => None;
     float_str := fun z => Str.of_Z z ++ py ".0";
     float_str_exact := fun _ _ => eq_refl |}.

(** Three networks: one that is down, one that answers every request with
    an empty body, one that answers with a one-byte body. *)
Definition net_down : network := fun _ _ => None.


Definition net_ok : network :=
  fun _ _ => Some (mkresponse (py "ok") [[]; [Byte.x31]] false).

Definition empty_world : world := mkworld ∅ 0 0.

(** A page given by its resource elements, with links that carry no
    [name] parameter. *)
Definition static_page (li_elements : list li_element) : WebLibs :=
  {| find_resource_items := fun _ => li_elements;
     urljoin := fun base link => Some (base ++ link);
     query_name := fun _ => Some None |}.

(** A page with links [urllib] may refuse: a link that starts with [//[]
    opens an address in brackets that is never closed, and [urlparse] and
    [urljoin] raise on it. *)
Definition strict_page (li_elements : list li_element) : WebLibs :=
  {| find_resource_items := fun _ => li_elements;
     urljoin := fun base link =>
       if Str.startswith link (py "//[") then None else Some (base ++ link);
     query_name := fun link =>
       if Str.startswith link (py "//[") then None else Some None |}.

(** A page whose links carry [?name=CSV]: the name taken from the link is
    not compared with the caption. *)
Definition query_page (li_elements : list li_element) : WebLibs :=
  {| find_resource_items := fun _ => li_elements;
     urljoin := fun base link => Some (base ++ link);
     query_name := fun link =>
       if Str.endswith link (py "?name=CSV") then Some (Some (py "CSV")) else Some None |}.

(** A network that answers every request but those for one file. *)
Definition net_one_broken : network :=
  fun _ url =>
    if Str.eqb url (py "https://data.gov.tw/b") then None
    else Some (mkresponse (py "<html>") [[Byte.x31]] false).

(** A table of three rows, and a per-row block that raises on a row whose
    first cell is NaN. *)
Definition three_rows : DataFrame :=
  {| columns := [py "date"; py "week"; py "flag"; py "note"];
     dtypes := [object_; object_; int64; object_];
     rows := [[VStr (py "2025/1/1"); VStr (py "三"); VInt 2; VStr (py "開國紀念日")];
              [VNaN; VNaN; VInt 0; VNaN];
              [VStr (py "2025/1/2"); VStr (py "四"); VInt 0; VNaN]] |}.

(** A table of numbers only: dates as integers, the week as a number, the
    flag, and a note column that is empty throughout, hence of floats. *)
Definition numeric_rows : DataFrame :=
  {| columns := [py "date"; py "week"; py "flag"; py "note"];
     dtypes := [int64; int64; int64; float64];
     rows := [[VInt 20250101; VInt 3; VInt 2; VNaN];
              [VInt 20250102; VInt 4; VInt 0; VNaN]] |}.

Definition raise_on_nan (row_body : list pyval -> DayRecord) (row : list pyval)
  : option DayRecord :=
  match row with
  | VNaN :: _ => None
  | _ => Some (row_body row)
  end.

(** * Properties *)

(** ** String primitives *)

Example py_literal : py "114年.csv" = [49; 49; 52; year_marker; 46; 99; 115; 118].
Proof. reflexivity. Qed.

Example strip_literal : Str.strip (py "  2024/1/1 ") = py "2024/1/1".
Proof. vm_compute. reflexivity. Qed.

Example splitext_literals :
  os_path.splitext (py "114年.csv") = (py "114年", py ".csv")
  /\ os_path.splitext (py "archive.tar.gz") = (py "archive.tar", py ".gz")
  /\ os_path.splitext (py ".hidden") = (py ".hidden", [])
  /\ os_path.basename (py "origin/114年.csv") = py "114年.csv"
  /\ os_path.join (py "docs") (py "2025.json") = py "docs/2025.json".
Proof. vm_compute. repeat split. Qed.

Lemma eqb_true_iff (s t : list N) : Str.eqb s t = true <-> s = t.
Proof. unfold Str.eqb. apply bool_decide_eq_true. Qed.

Lemma eqb_false_iff (s t : list N) : Str.eqb s t = false <-> s <> t.
Proof. unfold Str.eqb. apply bool_decide_eq_false. Qed.

Lemma mem_true_iff (s : list N) (words : list (list N)) :
  Str.mem s words = true <-> s ∈ words.
Proof. unfold Str.mem. apply bool_decide_eq_true. Qed.

Lemma mem_false_iff (s : list N) (words : list (list N)) :
  Str.mem s words = false <-> s ∉ words.
Proof. unfold Str.mem. apply bool_decide_eq_false. Qed.

(** ** [convert_holiday_flag] *)

Lemma holiday_workday_disjoint (s : list N) :
  s ∈ workday_words -> s ∉ holiday_words.
Proof.
  unfold workday_words, holiday_words. intros Hw Hh.
  repeat (apply elem_of_cons in Hw as [-> | Hw]);
    try (apply elem_of_nil in Hw; contradiction);
    revert Hh; apply (proj1 (bool_decide_eq_false _)); vm_compute; reflexivity.
Qed.

Section HolidayFlag.
Context `{Unicode}.

Lemma convert_holiday_flag_true_iff (flag_value : pyval) :
  convert_holiday_flag flag_value = true
  <-> Str.strip (py_str flag_value) = py "2"
      \/ (Str.strip (py_str flag_value) <> py "0"
          /\ lower (Str.strip (py_str flag_value)) ∈ holiday_words).
Proof.
  unfold convert_holiday_flag.
  destruct (Str.eqb _ (py "2")) eqn:E2.
  { apply eqb_true_iff in E2. tauto. }
  apply eqb_false_iff in E2.
  destruct (Str.eqb _ (py "0")) eqn:E0.
  { apply eqb_true_iff in E0. split; [discriminate | intros [? | [? _]]; contradiction]. }
  apply eqb_false_iff in E0.
  destruct (Str.mem _ holiday_words) eqn:Eh.
  { apply mem_true_iff in Eh. tauto. }
  apply mem_false_iff in Eh.
  split.
  - destruct (Str.mem _ workday_words); discriminate.
  - intros [? | [_ ?]]; contradiction.
Qed.

(** C1: [convert_holiday_flag] is decided by the stripped string form of its
    input: the token [2] gives true and [0] gives false; any other token gives
    true when its lower-case form is one of the holiday words, false when it is
    one of the workday words, and false for everything else.  The function is
    total: it has a boolean result on every input. *)
Theorem convert_holiday_flag_spec (flag_value : pyval) :
  let token := Str.strip (py_str flag_value) in
  (token = py "2" -> convert_holiday_flag flag_value = true)
  /\ (token = py "0" -> convert_holiday_flag flag_value = false)
  /\ (token <> py "2" -> token <> py "0" -> lower token ∈ holiday_words ->
      convert_holiday_flag flag_value = true)
  /\ (token <> py "2" -> token <> py "0" -> lower token ∈ workday_words ->
      convert_holiday_flag flag_value = false)
  /\ (token <> py "2" -> lower token ∉ holiday_words ->
      convert_holiday_flag flag_value = false).
Proof.
  intros token.
  assert (Hfalse : token <> py "2" -> lower token ∉ holiday_words ->
                   convert_holiday_flag flag_value = false).
  { intros H2 Hh. apply not_true_is_false. intros Ht.
    apply convert_holiday_flag_true_iff in Ht as [? | [_ ?]]; contradiction. }
  repeat split.
  - intros E. apply convert_holiday_flag_true_iff. now left.
  - intros E. apply not_true_is_false. intros Ht.
    apply convert_holiday_flag_true_iff in Ht as [E2 | [E0 _]].
    + fold token in E2. rewrite E in E2. discriminate E2.
    + contradiction.
  - intros _ E0 Hh. apply convert_holiday_flag_true_iff. right. now split.
  - intros E2 _ Hw. apply Hfalse; [exact E2 | now apply holiday_workday_disjoint].
  - exact Hfalse.
Qed.

Ltac lower_literal :=
  rewrite lower_simple by (vm_compute; reflexivity).

(** The literals of the specification: [2], [0], the integers 2 and 0, words
    in either language whatever their case, and garbage. *)
Example convert_holiday_flag_literals :
  convert_holiday_flag (VStr (py "2")) = true
  /\ convert_holiday_flag (VStr (py "0")) = false
  /\ convert_holiday_flag (VInt 2) = true
  /\ convert_holiday_flag (VInt 0) = false
  /\ convert_holiday_flag (VStr (py " Holiday ")) = true
  /\ convert_holiday_flag (VStr (py "放假")) = true
  /\ convert_holiday_flag (VStr (py "上班")) = false
  /\ convert_holiday_flag (VStr (py "2.0")) = false
  /\ convert_holiday_flag VNaN = false
  /\ convert_holiday_flag (VStr (py "garbage")) = false.
Proof.
  repeat split;
    try (vm_compute; reflexivity);
    unfold convert_holiday_flag;
    match goal with
    | |- context [Str.strip ?s] =>
        let t := eval vm_compute in (Str.strip s) in
        change (Str.strip s) with t
    end;
    lower_literal; vm_compute; reflexivity.
Qed.

End HolidayFlag.

(** ** [extract_roc_year_from_filename] *)

Section RocYear.
Context `{Unicode}.

Lemma search_roc_year_unfold (s : list N) :
  search_roc_year s =
  match match_roc_year s with
  | Some v => Some v
  | None => match s with [] => None | _ :: r => search_roc_year r end
  end.
Proof. destruct s; reflexivity. Qed.

Lemma match_roc_year_iff (s : list N) (v : Z) :
  match_roc_year s = Some v <-> year_token [] s v.
Proof.
  unfold match_roc_year, year_token. split.
  - destruct s as [|a [|b [|c [|y post]]]]; try discriminate.
    destruct (decimal a) as [x|] eqn:Ea; try discriminate.
    destruct (decimal b) as [x'|] eqn:Eb; try discriminate.
    destruct (decimal c) as [x''|] eqn:Ec; try discriminate.
    destruct (y =? year_marker) eqn:Ey; try discriminate.
    apply N.eqb_eq in Ey. subst y. intros [= <-].
    exists a, b, c, x, x', x'', post. auto.
  - intros (a & b & c & x & y & z & post & -> & Ea & Eb & Ec & ->).
    cbn [app]. rewrite Ea, Eb, Ec, N.eqb_refl. reflexivity.
Qed.

Lemma year_token_cons (a : N) (pre s : list N) (v : Z) :
  year_token (a :: pre) (a :: s) v <-> year_token pre s v.
Proof.
  unfold year_token. split.
  - intros (a0 & b & c & x & y & z & post & E & ?).
    simpl in E. injection E as E. exists a0, b, c, x, y, z, post. auto.
  - intros (a0 & b & c & x & y & z & post & -> & ?).
    exists a0, b, c, x, y, z, post. auto.
Qed.

Lemma year_token_head (a' a : N) (pre s : list N) (v : Z) :
  year_token (a' :: pre) (a :: s) v -> a' = a.
Proof.
  intros (a0 & b & c & x & y & z & post & E & _). simpl in E. congruence.
Qed.

Lemma year_token_nil (pre : list N) (v : Z) : ~ year_token pre [] v.
Proof.
  intros (a & b & c & x & y & z & post & E & _).
  apply (f_equal length) in E. rewrite length_app in E. simpl in E. lia.
Qed.

(** [re.search] returns the leftmost token. *)
Lemma search_roc_year_some (s : list N) (v : Z) :
  search_roc_year s = Some v ->
  exists pre, year_token pre s v
    /\ forall pre' v', year_token pre' s v' -> (length pre <= length pre')%nat.
Proof.
  induction s as [|a s IH]; rewrite search_roc_year_unfold.
  - simpl. discriminate.
  - destruct (match_roc_year (a :: s)) as [v0|] eqn:Em.
    + intros [= ->]. exists []. split.
      * now apply match_roc_year_iff.
      * intros. simpl. lia.
    + intros Hs. destruct (IH Hs) as (pre & Htok & Hmin).
      exists (a :: pre). split.
      * now apply year_token_cons.
      * intros [|a' pre'] v' Htok'.
        -- apply match_roc_year_iff in Htok'. congruence.
        -- pose proof (year_token_head _ _ _ _ _ Htok') as ->.
           apply year_token_cons in Htok'. specialize (Hmin _ _ Htok'). simpl. lia.
Qed.

Lemma search_roc_year_none (s : list N) :
  search_roc_year s = None -> forall pre v, ~ year_token pre s v.
Proof.
  induction s as [|a s IH]; rewrite search_roc_year_unfold.
  - intros _ pre v. apply year_token_nil.
  - destruct (match_roc_year (a :: s)) as [v0|] eqn:Em; [discriminate|].
    intros Hs [|a' pre] v Htok.
    + apply match_roc_year_iff in Htok. congruence.
    + pose proof (year_token_head _ _ _ _ _ Htok) as ->.
      apply year_token_cons in Htok. exact (IH Hs _ _ Htok).
Qed.

Lemma year_token_range (pre s : list N) (v : Z) :
  year_token pre s v -> (0 <= v <= 999)%Z.
Proof.
  intros (a & b & c & x & y & z & post & _ & Ea & Eb & Ec & ->).
  apply decimal_le_9 in Ea, Eb, Ec. lia.
Qed.

(** C3: when the file name has a token of three digits followed by the year
    marker, [extract_roc_year_from_filename] returns the integer value of
    such a token, the leftmost one; when it has none, it returns 0.  The
    result always lies between 0 and 999, and the calendar file of year 114
    gives 114. *)
Theorem extract_roc_year_from_filename_spec (filename : list N) :
  ((exists pre v, year_token pre filename v) ->
   exists pre v,
     year_token pre filename v
     /\ extract_roc_year_from_filename filename = v
     /\ forall pre' v', year_token pre' filename v' -> (length pre <= length pre')%nat)
  /\ ((forall pre v, ~ year_token pre filename v) ->
      extract_roc_year_from_filename filename = 0%Z)
  /\ (0 <= extract_roc_year_from_filename filename <= 999)%Z
  /\ extract_roc_year_from_filename
       (py "114年中華民國政府行政機關辦公日曆表.csv") = 114%Z.
Proof.
  unfold extract_roc_year_from_filename.
  destruct (search_roc_year filename) as [v|] eqn:Es.
  - destruct (search_roc_year_some _ _ Es) as (pre & Htok & Hmin).
    repeat split.
    + intros _. exists pre, v. auto.
    + intros Hnone. destruct (Hnone _ _ Htok).
    + apply (year_token_range _ _ _ Htok).
    + apply (year_token_range _ _ _ Htok).
    + simpl. rewrite !decimal_simple by (vm_compute; reflexivity). reflexivity.
  - pose proof (search_roc_year_none _ Es) as Hnone.
    repeat split; try lia.
    + intros (pre & v & Htok). destruct (Hnone _ _ Htok).
    + simpl. rewrite !decimal_simple by (vm_compute; reflexivity). reflexivity.
Qed.

(** A longer run of digits before the marker still ends in a token: its last
    three digits are read. *)
Example extract_roc_year_four_digits :
  extract_roc_year_from_filename (py "2024年.csv") = 24%Z.
Proof.
  unfold extract_roc_year_from_filename.
  simpl. rewrite !decimal_simple by (vm_compute; reflexivity). reflexivity.
Qed.

End RocYear.

(** ** Base names and extensions *)

Lemma rfind_from_app (c : N) (s t : list N) (i last : Z) :
  Str.rfind_from c (s ++ t) i last
  = Str.rfind_from c t (i + Z.of_nat (length s))%Z (Str.rfind_from c s i last).
Proof.
  revert i last. induction s as [|a s IH]; intros i last; simpl.
  - now rewrite Z.add_0_r.
  - rewrite IH. f_equal. lia.
Qed.

Lemma rfind_from_absent (c : N) (s : list N) (i last : Z) :
  c ∉ s -> Str.rfind_from c s i last = last.
Proof.
  revert i last. induction s as [|a s IH]; intros i last Hc; simpl; [reflexivity |].
  apply not_elem_of_cons in Hc as [Hne Hc]. rewrite IH by exact Hc.
  destruct (N.eqb_spec a c); [congruence | reflexivity].
Qed.

Lemma rfind_absent (c : N) (s : list N) : c ∉ s -> Str.rfind c s = (-1)%Z.
Proof. apply rfind_from_absent. Qed.

(** The last occurrence. *)
Lemma rfind_last (c : N) (s r : list N) :
  c ∉ r -> Str.rfind c (s ++ c :: r) = Z.of_nat (length s).
Proof.
  intros Hc. unfold Str.rfind. rewrite rfind_from_app. simpl.
  rewrite N.eqb_refl. now apply rfind_from_absent.
Qed.

Lemma basename_plain (name : list N) :
  os_path.sep ∉ name -> os_path.basename name = name.
Proof. intros Hs. unfold os_path.basename. now rewrite rfind_absent. Qed.

Lemma basename_dir (dir name : list N) :
  os_path.sep ∉ name -> os_path.basename (dir ++ os_path.sep :: name) = name.
Proof.
  intros Hs. unfold os_path.basename. rewrite rfind_last by exact Hs.
  replace (dir ++ os_path.sep :: name) with ((dir ++ [os_path.sep]) ++ name)
    by (now rewrite <- app_assoc).
  replace (Z.to_nat (Z.of_nat (length dir) + 1)) with (length (dir ++ [os_path.sep]))
    by (rewrite length_app; simpl; lia).
  apply drop_app_length.
Qed.

(** The extension of a name that has one: what follows its last dot, when
    something other than dots comes before. *)
Lemma splitext_extension (stem ext : list N) :
  os_path.sep ∉ stem -> os_path.sep ∉ ext -> os_path.extsep ∉ ext ->
  (exists c, c ∈ stem /\ c <> os_path.extsep) ->
  os_path.splitext (stem ++ os_path.extsep :: ext) = (stem, os_path.extsep :: ext).
Proof.
  intros Hs1 Hs2 Hd (c & Hc & Hne). unfold os_path.splitext.
  assert (Hsep : os_path.sep ∉ stem ++ os_path.extsep :: ext).
  { rewrite elem_of_app, elem_of_cons. intros [? | [? | ?]];
      [contradiction | discriminate | contradiction]. }
  rewrite (rfind_absent _ _ Hsep), (rfind_last _ _ _ Hd).
  destruct (Z.ltb_spec (-1) (Z.of_nat (length stem))); [| lia].
  replace (Z.to_nat (Z.of_nat (length stem) - (-1 + 1))) with (length stem) by lia.
  replace (Z.to_nat (-1 + 1)) with 0%nat by lia.
  replace (Z.to_nat (Z.of_nat (length stem))) with (length stem) by lia.
  rewrite drop_0, take_app_length, drop_app_length.
  assert (He : existsb (fun c => negb (c =? os_path.extsep)) stem = true).
  { apply existsb_exists. exists c. split; [now apply list_elem_of_In |].
    apply negb_true_iff. now apply N.eqb_neq. }
  now rewrite He.
Qed.

Example splitext_calendar :
  os_path.splitext (py "114年中華民國政府行政機關辦公日曆表.csv")
  = (py "114年中華民國政府行政機關辦公日曆表", py ".csv").
Proof. vm_compute. reflexivity. Qed.

(** ** [convert_roc_to_western_year] and [generate_json_filename] *)

Lemma convert_roc_to_western_year_pos (roc_year : Z) :
  (0 < roc_year)%Z -> convert_roc_to_western_year roc_year = (roc_year + 1911)%Z.
Proof.
  intros Hpos. unfold convert_roc_to_western_year.
  destruct (Z.leb_spec roc_year 0); [lia | reflexivity].
Qed.

Lemma convert_roc_to_western_year_nonpos (roc_year : Z) :
  (roc_year <= 0)%Z -> convert_roc_to_western_year roc_year = 0%Z.
Proof.
  intros Hle. unfold convert_roc_to_western_year.
  destruct (Z.leb_spec roc_year 0); [reflexivity | lia].
Qed.

Section JsonFilename.
Context `{Unicode}.

Lemma generate_json_filename_year (csv_file_path : list N) :
  (0 < extract_roc_year_from_filename (os_path.basename csv_file_path))%Z ->
  generate_json_filename csv_file_path =
  Str.of_Z (extract_roc_year_from_filename (os_path.basename csv_file_path) + 1911)
  ++ py ".json".
Proof.
  intros Hpos. unfold generate_json_filename.
  destruct (Z.ltb_spec 0 (extract_roc_year_from_filename (os_path.basename csv_file_path)));
    [| lia].
  now rewrite convert_roc_to_western_year_pos.
Qed.

Lemma generate_json_filename_unknown (csv_file_path : list N) :
  extract_roc_year_from_filename (os_path.basename csv_file_path) = 0%Z ->
  generate_json_filename csv_file_path =
  fst (os_path.splitext (os_path.basename csv_file_path)) ++ py ".json".
Proof. intros E. unfold generate_json_filename. rewrite E. reflexivity. Qed.

Lemma extract_roc_year_no_token (filename : list N) :
  (forall pre v, ~ year_token pre filename v) ->
  extract_roc_year_from_filename filename = 0%Z.
Proof.
  intros Hnone. unfold extract_roc_year_from_filename.
  destruct (search_roc_year filename) as [v|] eqn:Es; [| reflexivity].
  destruct (search_roc_year_some _ _ Es) as (pre & Htok & _).
  destruct (Hnone _ _ Htok).
Qed.

(** A [.csv] file in a directory, with no year in its name, keeps its name. *)
Lemma generate_json_filename_base_name (dir stem : list N) :
  os_path.sep ∉ stem ->
  (exists c, c ∈ stem /\ c <> os_path.extsep) ->
  (forall pre v, ~ year_token pre (stem ++ py ".csv") v) ->
  generate_json_filename (dir ++ os_path.sep :: stem ++ py ".csv") = stem ++ py ".json".
Proof.
  intros Hsep Hdot Hnone.
  assert (Hname : os_path.sep ∉ stem ++ py ".csv").
  { rewrite elem_of_app. intros [? | Hin]; [contradiction |].
    revert Hin. apply (proj1 (bool_decide_eq_false _)). vm_compute. reflexivity. }
  rewrite generate_json_filename_unknown; rewrite basename_dir by exact Hname.
  - change (py ".csv") with (os_path.extsep :: py "csv").
    rewrite splitext_extension; [reflexivity | exact Hsep | | | exact Hdot];
      apply (proj1 (bool_decide_eq_false _)); vm_compute; reflexivity.
  - now apply extract_roc_year_no_token.
Qed.

(** C4, as the code has it: [convert_roc_to_western_year] adds 1911 to a
    positive year and returns 0 otherwise (114 gives 2025).  The name
    [generate_json_filename] computes is the western year followed by [.json]
    when the year extracted from the base name is positive, and the base
    name without its extension followed by [.json] when that year is 0, as it
    is when the base name has no three-digit token: [dir/stem.csv] then
    gives [stem.json]. *)
Theorem generate_json_filename_spec (csv_file_path : list N) (roc_year : Z) :
  let filename := os_path.basename csv_file_path in
  let found := extract_roc_year_from_filename filename in
  ((0 < roc_year)%Z -> convert_roc_to_western_year roc_year = (roc_year + 1911)%Z)
  /\ ((roc_year <= 0)%Z -> convert_roc_to_western_year roc_year = 0%Z)
  /\ convert_roc_to_western_year 114 = 2025%Z
  /\ ((0 < found)%Z ->
      generate_json_filename csv_file_path = Str.of_Z (found + 1911) ++ py ".json")
  /\ (found = 0%Z ->
      generate_json_filename csv_file_path = fst (os_path.splitext filename) ++ py ".json")
  /\ ((forall pre v, ~ year_token pre filename v) ->
      generate_json_filename csv_file_path = fst (os_path.splitext filename) ++ py ".json")
  /\ (forall dir stem,
        csv_file_path = dir ++ os_path.sep :: stem ++ py ".csv" ->
        os_path.sep ∉ stem ->
        (exists c, c ∈ stem /\ c <> os_path.extsep) ->
        (forall pre v, ~ year_token pre (stem ++ py ".csv") v) ->
        generate_json_filename csv_file_path = stem ++ py ".json").
Proof.
  intros filename found.
  split; [apply convert_roc_to_western_year_pos |].
  split; [apply convert_roc_to_western_year_nonpos |].
  split; [reflexivity |].
  split; [apply generate_json_filename_year |].
  split; [apply generate_json_filename_unknown |].
  split.
  - intros Hnone. apply generate_json_filename_unknown.
    now apply extract_roc_year_no_token.
  - intros dir stem ->. apply generate_json_filename_base_name.
Qed.

Ltac read_digits :=
  repeat (rewrite !decimal_simple by (vm_compute; reflexivity); cbn).

(** The calendar file of year 114 is written to [2025.json], a file without
    a year token keeps its base name. *)
Example generate_json_filename_literals :
  generate_json_filename (py "origin/114年中華民國政府行政機關辦公日曆表.csv")
  = py "2025.json"
  /\ generate_json_filename (py "origin/calendar.csv") = py "calendar.json".
Proof.
  split.
  - rewrite generate_json_filename_year;
      change (os_path.basename (py "origin/114年中華民國政府行政機關辦公日曆表.csv"))
        with (py "114年中華民國政府行政機關辦公日曆表.csv");
      unfold extract_roc_year_from_filename; simpl; read_digits; reflexivity.
  - rewrite generate_json_filename_unknown;
      change (os_path.basename (py "origin/calendar.csv")) with (py "calendar.csv").
    + vm_compute. reflexivity.
    + unfold extract_roc_year_from_filename; simpl; read_digits; reflexivity.
Qed.

(** A token of value zero is found, and the name is not [1911.json]: the
    year 0 stands for a name without a year. *)
Lemma generate_json_filename_token_000 :
  @year_token basic_unicode [] (py "000年.csv") 0
  /\ @extract_roc_year_from_filename basic_unicode (py "000年.csv") = 0%Z
  /\ @generate_json_filename basic_unicode (py "000年.csv") = py "000年.json"
  /\ @generate_json_filename basic_unicode (py "000年.csv") <> Str.of_Z (0 + 1911) ++ py ".json".
Proof.
  split; [| split; [| split]].
  - apply match_roc_year_iff. reflexivity.
  - reflexivity.
  - vm_compute. reflexivity.
  - vm_compute. discriminate.
Qed.

(** In that case the token of value zero is ignored whatever the database. *)
Lemma generate_json_filename_000 :
  generate_json_filename (py "000年.csv") = py "000年.json".
Proof.
  rewrite generate_json_filename_unknown;
    change (os_path.basename (py "000年.csv")) with (py "000年.csv").
  - vm_compute. reflexivity.
  - unfold extract_roc_year_from_filename; simpl; read_digits; reflexivity.
Qed.

End JsonFilename.

(** ** Prefixes, suffixes and stripping *)

Lemma startswith_prefix (s p : list N) :
  Str.startswith s p = true <-> p `prefix_of` s.
Proof.
  revert s. induction p as [|a p IH]; intros [|b s]; simpl.
  - split; [intros _; apply prefix_nil | reflexivity].
  - split; [intros _; apply prefix_nil | reflexivity].
  - split; [discriminate | intros Hp; now apply prefix_nil_inv in Hp].
  - { rewrite andb_true_iff, N.eqb_eq, IH. split.
      * intros [-> Hp]. now apply prefix_cons.
      * intros Hp. split.
        -- now apply prefix_cons_inv_1 in Hp.
        -- now apply prefix_cons_inv_2 in Hp. }
Qed.

Lemma endswith_suffix (s p : list N) :
  Str.endswith s p = true <-> p `suffix_of` s.
Proof.
  unfold Str.endswith. rewrite startswith_prefix. split.
  - intros [k E]. exists (rev k).
    rewrite <- (rev_involutive s), E, rev_app_distr, rev_involutive. reflexivity.
  - intros [k ->]. exists (rev k). apply rev_app_distr.
Qed.

Lemma join_suffix (a b : list N) : b `suffix_of` os_path.join a b.
Proof.
  unfold os_path.join.
  destruct (Str.startswith b [os_path.sep]); [reflexivity |].
  destruct (Str.eqb a [] || Str.endswith a [os_path.sep]).
  - now exists a.
  - exists (a ++ [os_path.sep]). now rewrite <- app_assoc.
Qed.

Lemma drop_while_split (f : N -> bool) (s : list N) :
  exists ws, s = ws ++ Str.drop_while f s /\ Forall (fun c => f c = true) ws.
Proof.
  induction s as [|a s (ws & E & Hws)]; simpl.
  - now exists [].
  - destruct (f a) eqn:Efa.
    + exists (a :: ws). split; [simpl; congruence | now constructor].
    + now exists [].
Qed.

Lemma drop_while_head (f : N -> bool) (s : list N) (c : N) (r : list N) :
  Str.drop_while f s = c :: r -> f c = false.
Proof.
  induction s as [|a s IH]; simpl; [discriminate |].
  destruct (f a) eqn:Efa; [exact IH | congruence].
Qed.

Lemma rstrip_split (s : list N) :
  exists ws, s = Str.rstrip s ++ ws /\ Forall (fun c => isspace c = true) ws.
Proof.
  unfold Str.rstrip.
  destruct (drop_while_split isspace (rev s)) as (ws & E & Hws).
  exists (rev ws). split.
  - rewrite <- rev_app_distr, <- E, rev_involutive. reflexivity.
  - apply Forall_forall. intros c Hc. rewrite Forall_forall in Hws.
    apply Hws. apply list_elem_of_In. apply in_rev. now apply list_elem_of_In.
Qed.

Lemma rstrip_last (s pre : list N) (c : N) :
  Str.rstrip s = pre ++ [c] -> isspace c = false.
Proof.
  unfold Str.rstrip. intros E.
  apply (f_equal (@rev N)) in E. rewrite rev_involutive, rev_app_distr in E.
  simpl in E. exact (drop_while_head _ _ _ _ E).
Qed.

(** ** The staging path of a download *)

Section SafeFilename.
Context `{Unicode}.

Lemma safe_filename_csv (filename : list N) :
  py ".csv" `suffix_of` safe_filename filename.
Proof.
  unfold safe_filename.
  destruct (Str.endswith _ (py ".csv")) eqn:E.
  - now apply endswith_suffix.
  - now eexists.
Qed.

(** C10: the staging path of [download_file] ends with [.csv].  Its last
    component is the sanitized name: the characters of the given name that
    are alphanumeric, a space, a hyphen, an underscore or a dot, in their
    order, without the white space at the end, and with [.csv] appended
    unless the name already ends with it. *)
Theorem file_path_ends_with_csv (origin_dir filename : list N) :
  let kept := filter (fun c => keep_char c = true) filename in
  let name := Str.rstrip kept in
  py ".csv" `suffix_of` file_path origin_dir filename
  /\ safe_filename filename `suffix_of` file_path origin_dir filename
  /\ (Str.endswith name (py ".csv") = true -> safe_filename filename = name)
  /\ (Str.endswith name (py ".csv") = false -> safe_filename filename = name ++ py ".csv")
  /\ (forall c, c ∈ kept <->
        c ∈ filename
        /\ (isalnum c = true \/ c = 32 \/ c = 45 \/ c = 95 \/ c = 46))
  /\ kept `sublist_of` filename
  /\ (exists ws, kept = name ++ ws /\ Forall (fun c => isspace c = true) ws)
  /\ (forall pre c, name = pre ++ [c] -> isspace c = false).
Proof.
  intros kept name.
  assert (Hsafe : safe_filename filename `suffix_of` file_path origin_dir filename)
    by apply join_suffix.
  split; [| split; [exact Hsafe | split; [| split; [| split; [| split; [| split]]]]]].
  - etransitivity; [apply safe_filename_csv | exact Hsafe].
  - intros E. unfold safe_filename. fold kept name. now rewrite E.
  - intros E. unfold safe_filename. fold kept name. now rewrite E.
  - intros c. unfold kept. rewrite list_elem_of_filter. unfold keep_char.
    rewrite !orb_true_iff, !N.eqb_eq. tauto.
  - apply sublist_filter.
  - apply rstrip_split.
  - intros pre c. apply rstrip_last.
Qed.

Lemma keep_char_simple (c : N) :
  simple c = true -> keep_char c = @keep_char basic_unicode c.
Proof.
  intros Hc. unfold keep_char. rewrite isalnum_simple by exact Hc.
  simpl. rewrite Hc. reflexivity.
Qed.

(** On a name of ASCII characters and ideographs the rest of the character
    database plays no part. *)
Lemma safe_filename_simple (filename : list N) :
  forallb simple filename = true ->
  safe_filename filename = @safe_filename basic_unicode filename.
Proof.
  intros Hs. unfold safe_filename.
  assert (E : filter (fun c => keep_char c = true) filename
              = filter (fun c => @keep_char basic_unicode c = true) filename).
  { induction filename as [|a s IH]; [reflexivity |].
    simpl in Hs. apply andb_true_iff in Hs as [Ha Hs].
    rewrite !filter_cons, (keep_char_simple a Ha), (IH Hs). reflexivity. }
  rewrite E. reflexivity.
Qed.

(** A name with characters to drop, and a name that has its suffix. *)
Example safe_filename_literals :
  safe_filename (py "114 calendar/(1).csv  ") = py "114 calendar1.csv"
  /\ safe_filename (py "114年中華民國政府行政機關辦公日曆表")
     = py "114年中華民國政府行政機關辦公日曆表.csv".
Proof.
  split; rewrite safe_filename_simple by (vm_compute; reflexivity);
    vm_compute; reflexivity.
Qed.

End SafeFilename.

(** ** [download_file] *)

Lemma exists_file_true (path : list N) (w : world) :
  exists_file path w = true <-> is_Some (files w !! path).
Proof. unfold exists_file. apply bool_decide_eq_true. Qed.

Lemma exists_file_false (path : list N) (w : world) :
  exists_file path w = false <-> files w !! path = None.
Proof.
  unfold exists_file. rewrite bool_decide_eq_false. symmetry. apply eq_None_not_Some.
Qed.

Lemma cleanup_files (path : list N) (w : world) :
  files (cleanup path w) = delete path (files w).
Proof.
  unfold cleanup. destruct (exists_file path w) eqn:E; [reflexivity |].
  apply exists_file_false in E. symmetry. now apply delete_id.
Qed.

Lemma cleanup_requests (path : list N) (w : world) :
  requests (cleanup path w) = requests w.
Proof. unfold cleanup. now destruct (exists_file path w). Qed.

Section Download.
Context `{Unicode}.
Variable net : network.

(** A successful attempt leaves a non-empty file; an attempt that raises
    leaves, after the handler, the files it started from. *)
Lemma attempt_download_true (path url : list N) (w w1 : world) :
  attempt_download net path url w = (true, w1) ->
  exists content,
    content <> [] /\ files w1 = <[path := content]> (files w)
    /\ requests w1 = S (requests w).
Proof.
  unfold attempt_download. destruct (net (requests w) url) as [r|]; [| discriminate].
  destruct (broken r); [discriminate |].
  destruct (length (concat (chunks r)) =? 0)%nat eqn:Elen; [discriminate |].
  intros [= <-]. exists (concat (chunks r)). repeat split.
  intros E. rewrite E in Elen. discriminate Elen.
Qed.

Lemma attempt_download_false (path url : list N) (w w1 : world) :
  attempt_download net path url w = (false, w1) ->
  files w !! path = None ->
  files (cleanup path w1) = files w /\ requests (cleanup path w1) = S (requests w).
Proof.
  intros Ha Hnone. rewrite cleanup_files, cleanup_requests.
  unfold attempt_download in Ha.
  destruct (net (requests w) url) as [r|].
  - destruct (broken r).
    + injection Ha as <-. simpl. split; [| reflexivity].
      rewrite delete_insert_eq. now apply delete_id.
    + destruct (length (concat (chunks r)) =? 0)%nat; [| discriminate].
      injection Ha as <-. simpl. split; [| reflexivity].
      rewrite delete_delete_eq, delete_insert_eq. now apply delete_id.
  - injection Ha as <-. simpl. split; [now apply delete_id | reflexivity].
Qed.

Lemma sleep_files (n : nat) (w : world) : files (sleep n w) = files w.
Proof. reflexivity. Qed.

(** The loop: it ends with the file written in full, or with the files it
    started from, after at most [remaining] requests. *)
Lemma download_attempts_outcome (path url : list N) (max_retries remaining : nat)
    (w w' : world) (r : option bool) :
  files w !! path = None ->
  download_attempts net path url max_retries remaining w = (r, w') ->
  (requests w <= requests w' <= requests w + remaining)%nat
  /\ ((r = Some true
       /\ exists content, content <> [] /\ files w' = <[path := content]> (files w))
      \/ (r <> Some true /\ files w' = files w)).
Proof.
  revert w. induction remaining as [|k IH]; intros w Hnone; simpl.
  - intros [= <- <-]. split; [lia |]. right. split; [discriminate | reflexivity].
  - destruct (attempt_download net path url w) as [ok w1] eqn:Ea.
    destruct ok.
    + intros [= <- <-]. apply attempt_download_true in Ea as (content & Hc & Hf & Hr).
      split; [lia |]. left. split; [reflexivity |]. now exists content.
    + destruct (attempt_download_false _ _ _ _ Ea Hnone) as [Hf Hr].
      destruct (max_retries - S k <? max_retries - 1)%nat.
      * intros Hrec. apply IH in Hrec.
        -- simpl in Hrec. rewrite Hf, Hr in Hrec. destruct Hrec as [Hreq Hout].
           split; [lia | exact Hout].
        -- simpl. now rewrite Hf.
      * intros [= <- <-]. rewrite Hf, Hr. split; [lia |].
        right. split; [discriminate | reflexivity].
Qed.

Lemma download_file_outcome (origin_dir url filename : list N) (max_retries : nat)
    (w w' : world) (r : option bool) :
  download_file net origin_dir url filename max_retries w = (r, w') ->
  (requests w <= requests w' <= requests w + max_retries)%nat
  /\ ((r = Some true /\ is_Some (files w' !! file_path origin_dir filename))
      \/ (r <> Some true /\ files w' = files w
          /\ files w !! file_path origin_dir filename = None)).
Proof.
  unfold download_file.
  destruct (exists_file (file_path origin_dir filename) w) eqn:Ex.
  - intros [= <- <-]. split; [lia |]. left. split; [reflexivity |].
    now apply exists_file_true.
  - apply exists_file_false in Ex. intros Hd.
    destruct (download_attempts_outcome _ _ _ _ _ _ _ Ex Hd)
      as [Hreq [[-> (content & _ & Hf)] | [Hr Hf]]].
    + split; [exact Hreq |]. left. split; [reflexivity |].
      rewrite Hf, lookup_insert_eq. eauto.
    + split; [exact Hreq |]. right. auto.
Qed.


(** C6, as the code has it: when the file of the sanitized name exists,
    [download_file] returns success and leaves the world, the count of
    requests included, as it is; and after a call that returned success, a
    second call for any name with the same sanitized name returns success
    without a request. *)
Theorem download_file_idempotent (origin_dir url url' filename filename' : list N)
    (max_retries max_retries' : nat) (w w1 : world) :
  safe_filename filename' = safe_filename filename ->
  (exists_file (file_path origin_dir filename) w = true ->
   download_file net origin_dir url filename max_retries w = (Some true, w))
  /\ (download_file net origin_dir url filename max_retries w = (Some true, w1) ->
      download_file net origin_dir url' filename' max_retries' w1 = (Some true, w1)).
Proof.
  intros Esafe. split.
  - intros Ex. unfold download_file. now rewrite Ex.
  - intros Hd.
    destruct (download_file_outcome _ _ _ _ _ _ _ Hd) as [_ [[_ Hsome] | [Hr _]]];
      [| contradiction].
    unfold download_file, file_path. rewrite Esafe.
    apply exists_file_true in Hsome. unfold file_path in Hsome. now rewrite Hsome.
Qed.

End Download.


(** With the network down, the second call sends requests again and fails
    again: the first call left no file to find. *)
Lemma download_file_twice_network_down :
  let first :=
    @download_file basic_unicode net_down (py "origin") (py "https://data.gov.tw/a")
      (py "114年") 3 empty_world in
  let second :=
    @download_file basic_unicode net_down (py "origin") (py "https://data.gov.tw/a")
      (py "114年") 3 (snd first) in
  fst first = Some false
  /\ requests (snd first) = 3%nat
  /\ fst second = Some false
  /\ requests (snd second) = 6%nat.
Proof. vm_compute. repeat split. Qed.

Lemma download_file_idempotent_witness :
  let first :=
    @download_file basic_unicode net_ok (py "origin") (py "https://data.gov.tw/a")
      (py "114年 calendar") 3 empty_world in
  fst first = Some true
  /\ @download_file basic_unicode net_ok (py "origin") (py "https://data.gov.tw/b")
       (py "114年/ calendar.csv") 5 (snd first) = (Some true, snd first).
Proof.
  intros first.
  assert (E1 : first = (Some true, snd first)).
  { apply injective_projections; [vm_compute; reflexivity | reflexivity]. }
  split; [now rewrite E1 |].
  refine (proj2 (@download_file_idempotent basic_unicode net_ok (py "origin")
                   (py "https://data.gov.tw/a") (py "https://data.gov.tw/b")
                   (py "114年 calendar") (py "114年/ calendar.csv") 3 5 empty_world
                   (snd first) _) E1).
  vm_compute. reflexivity.
Defined.

(** ** [parse_resource_items] *)

Lemma eligible_test (sp : span) :
  negb (in_button sp) && negb (Str.eqb (span_text sp) [])
  && negb (Str.eqb (span_text sp) (py "CSV")) = true
  <-> eligible sp.
Proof.
  unfold eligible. rewrite !andb_true_iff, !negb_true_iff, !eqb_false_iff. tauto.
Qed.

Lemma span_filename_some (all_spans : list span) (t : list N) :
  span_filename all_spans = Some t <->
  exists before sp after,
    all_spans = before ++ sp :: after
    /\ Forall (fun sp' => ~ eligible sp') before
    /\ eligible sp /\ t = span_text sp.
Proof.
  induction all_spans as [|sp0 rest IH]; simpl.
  - split; [discriminate |]. intros (before & sp & after & E & _).
    now destruct before.
  - destruct (negb (in_button sp0) && negb (Str.eqb (span_text sp0) [])
              && negb (Str.eqb (span_text sp0) (py "CSV"))) eqn:Et.
    + apply eligible_test in Et. split.
      * intros [= <-]. exists [], sp0, rest. auto.
      * intros ([|sp1 before] & sp & after & E & Hb & He & ->).
        -- simpl in E. now injection E as <- _.
        -- simpl in E. injection E as <- _. inversion Hb; contradiction.
    + assert (Hn : ~ eligible sp0).
      { intros He. apply eligible_test in He. congruence. }
      rewrite IH. split.
      * intros (before & sp & after & -> & Hb & He & ->).
        exists (sp0 :: before), sp, after. auto.
      * intros ([|sp1 before] & sp & after & E & Hb & He & ->).
        -- simpl in E. injection E as <- _. contradiction.
        -- simpl in E. injection E as <- ->. inversion Hb; subst.
           exists before, sp, after. auto.
Qed.

Lemma span_filename_none (all_spans : list span) :
  span_filename all_spans = None <-> Forall (fun sp => ~ eligible sp) all_spans.
Proof.
  induction all_spans as [|sp0 rest IH]; simpl.
  - split; [constructor | reflexivity].
  - destruct (negb (in_button sp0) && negb (Str.eqb (span_text sp0) [])
              && negb (Str.eqb (span_text sp0) (py "CSV"))) eqn:Et.
    + apply eligible_test in Et. split; [discriminate |].
      intros Hall. inversion Hall; contradiction.
    + assert (Hn : ~ eligible sp0).
      { intros He. apply eligible_test in He. congruence. }
      rewrite IH. split; [now constructor | intros Hall; now inversion Hall].
Qed.

Section Parse.
Context `{WebLibs}.

(** The items the loop adds to [resource_items]: each one comes from an
    element with a non-empty link, is named by [item_filename] at the count
    of the items accepted before it, and has no [Google] in its name. *)
Lemma parse_items_added (target_url : list N) (li_elements : list li_element)
    (resource_items : list (list N * list N)) :
  exists added,
    parse_items target_url li_elements resource_items = resource_items ++ added
    /\ forall k link name,
         added !! k = Some (link, name) ->
         Str.contains (py "Google") name = false
         /\ exists li l,
              li ∈ li_elements /\ href li = Some l /\ l <> []
              /\ item_filename l (spans li) (length resource_items + k) = Some name
              /\ full_link target_url l = Some link.
Proof.
  revert resource_items.
  induction li_elements as [|li rest IH]; intros resource_items; simpl.
  - exists []. split; [now rewrite app_nil_r | intros k ? ? Hk; now destruct k].
  - assert (Hskip :
      exists added,
        parse_items target_url rest resource_items = resource_items ++ added
        /\ forall k link name,
             added !! k = Some (link, name) ->
             Str.contains (py "Google") name = false
             /\ exists li' l,
                  li' ∈ li :: rest /\ href li' = Some l /\ l <> []
                  /\ item_filename l (spans li') (length resource_items + k) = Some name
                  /\ full_link target_url l = Some link).
    { destruct (IH resource_items) as (added & E & Hadded).
      exists added. split; [exact E |]. intros k link name Hk.
      destruct (Hadded _ _ _ Hk) as (Hg & li' & l & Hin & ?).
      split; [exact Hg |]. exists li', l. split; [now apply list_elem_of_further | auto]. }
    destruct (href li) as [link|] eqn:Eh; [| exact Hskip].
    destruct (Str.eqb link []) eqn:El; [exact Hskip |].
    apply eqb_false_iff in El.
    destruct (item_filename link (spans li) (length resource_items))
      as [filename|] eqn:En; [| exact Hskip].
    destruct (Str.contains (py "Google") filename) eqn:Eg; simpl; [exact Hskip |].
    destruct (full_link target_url link) as [link'|] eqn:Ef; [| exact Hskip].
    destruct (IH (resource_items ++ [(link', filename)])) as (added & E & Hadded).
    eexists (_ :: added). split.
    + rewrite E, <- app_assoc. reflexivity.
    + intros [|k] link0 name Hk.
      * simpl in Hk. injection Hk as <- <-. split; [exact Eg |].
        exists li, link. rewrite Nat.add_0_r.
        split; [apply list_elem_of_here | auto].
      * simpl in Hk. destruct (Hadded _ _ _ Hk) as (Hg & li' & l & Hin & Hh & Hl & Hn & Hlk).
        split; [exact Hg |]. exists li', l.
        split; [now apply list_elem_of_further |].
        rewrite length_app in Hn. simpl in Hn.
        replace (length resource_items + S k)%nat
          with (length resource_items + 1 + k)%nat by lia.
        auto.
Qed.

(** C8, as the code has it: no name returned by [parse_resource_items]
    contains [Google].  Every returned item comes from a resource element
    with a non-empty link, and its name is the text of the first span of the
    element that is outside a button and whose text is neither empty nor
    exactly [CSV]; without such a span, the [name] parameter of the link;
    without that, [calendar_n], n being one more than the number of items
    accepted before it.  (An element on whose link [urlparse] or [urljoin]
    raises gives no item.) *)
Theorem parse_resource_items_names (target_url html_content : list N) :
  let items := parse_resource_items target_url html_content in
  (forall k link name,
     items !! k = Some (link, name) ->
     Str.contains (py "Google") name = false
     /\ exists li l,
          li ∈ find_resource_items html_content /\ href li = Some l /\ l <> []
          /\ item_filename l (spans li) k = Some name
          /\ full_link target_url l = Some link)
  /\ (forall l all_spans k,
        (forall before sp after,
           all_spans = before ++ sp :: after ->
           Forall (fun sp' => ~ eligible sp') before -> eligible sp ->
           item_filename l all_spans k = Some (span_text sp))
        /\ (Forall (fun sp => ~ eligible sp) all_spans ->
            forall name, query_name l = Some (Some name) ->
                         item_filename l all_spans k = Some name)
        /\ (Forall (fun sp => ~ eligible sp) all_spans ->
            query_name l = Some None ->
            item_filename l all_spans k
            = Some (py "calendar_" ++ Str.of_N (N.of_nat (k + 1))))
        /\ (Forall (fun sp => ~ eligible sp) all_spans ->
            query_name l = None -> item_filename l all_spans k = None)).
Proof.
  intros items. split.
  - intros k link name Hk. unfold items, parse_resource_items in Hk.
    destruct (parse_items_added target_url (find_resource_items html_content) [])
      as (added & E & Hadded).
    rewrite E in Hk. simpl in Hk. exact (Hadded _ _ _ Hk).
  - intros l all_spans k. unfold item_filename. repeat split.
    + intros before sp after E Hb He.
      assert (Hs : span_filename all_spans = Some (span_text sp)).
      { apply span_filename_some. exists before, sp, after. auto. }
      now rewrite Hs.
    + intros Hall name Hq. apply span_filename_none in Hall. now rewrite Hall, Hq.
    + intros Hall Hq. apply span_filename_none in Hall. now rewrite Hall, Hq.
    + intros Hall Hq. apply span_filename_none in Hall. now rewrite Hall, Hq.
Qed.

End Parse.

(** A span text that holds the caption inside a longer label is taken as
    the name: only the text that is exactly [CSV] is passed over. *)
Lemma parse_resource_items_name_with_CSV :
  let li :=
    mkli (Some (py "https://data.gov.tw/a"))
         [mkspan true (py "CSV"); mkspan false (py "CSV"); mkspan false (py "114年 CSV")] in
  @parse_resource_items (static_page [li]) (py "https://data.gov.tw/dataset/14718") (py "<html>")
  = [(py "https://data.gov.tw/a", py "114年 CSV")]
  /\ Str.contains (py "CSV") (py "114年 CSV") = true.
Proof. vm_compute. split; reflexivity. Qed.

(** An element whose link [urllib] refuses is passed over, and the elements
    after it are still read; its position is not counted in the synthetic
    names. *)
Example parse_resource_items_skips_bad_link :
  @parse_resource_items
    (strict_page [mkli (Some (py "//[x")) [mkspan false (py "114年")];
                  mkli (Some (py "//[y")) [];
                  mkli (Some (py "/a.csv")) []])
    (py "https://data.gov.tw/dataset/14718") (py "<html>")
  = [(py "https://data.gov.tw/dataset/14718/a.csv", py "calendar_1")].
Proof. vm_compute. reflexivity. Qed.

Example parse_resource_items_name_from_query :
  @parse_resource_items
    (query_page [mkli (Some (py "https://data.gov.tw/a?name=CSV")) [mkspan false (py "CSV")]])
    (py "https://data.gov.tw/dataset/14718") (py "<html>")
  = [(py "https://data.gov.tw/a?name=CSV", py "CSV")].
Proof. vm_compute. reflexivity. Qed.

(** ** [crawl] *)

Section Crawl.
Context `{Unicode} `{WebLibs}.
Variable net : network.

Lemma successes_cons (r : option bool) (results : list (option bool)) :
  successes (r :: results)
  = ((if truthy r then 1 else 0) + successes results)%nat.
Proof.
  unfold successes. rewrite filter_cons.
  destruct (truthy r) eqn:E; destruct (decide _) as [Hd | Hd]; simpl; congruence.
Qed.

Lemma successes_le (results : list (option bool)) :
  (successes results <= length results)%nat.
Proof. unfold successes. apply length_filter. Qed.

Lemma download_each_length (origin_dir : list N) (resource_items : list (list N * list N))
    (total_count i : nat) (w : world) :
  length (fst (download_each net origin_dir resource_items total_count i w))
  = length resource_items.
Proof.
  revert i w. induction resource_items as [|[link filename] rest IH]; intros i w; simpl.
  - reflexivity.
  - now rewrite IH.
Qed.

(** The counting loop of the source agrees with [download_each]. *)
Lemma download_items_each (origin_dir : list N) (resource_items : list (list N * list N))
    (total_count i success_count : nat) (w : world) :
  download_items net origin_dir resource_items total_count i success_count w
  = ((success_count
      + successes (fst (download_each net origin_dir resource_items total_count i w)),
      total_count)%nat,
     snd (download_each net origin_dir resource_items total_count i w)).
Proof.
  revert i success_count w.
  induction resource_items as [|[link filename] rest IH]; intros i success_count w; simpl.
  - unfold successes. simpl. now rewrite Nat.add_0_r.
  - destruct (download_file net origin_dir link filename 3 w) as [ok w1] eqn:Ed. simpl.
    rewrite !Nat.add_1_r, IH, successes_cons.
    destruct (truthy ok); simpl; do 2 f_equal; lia.
Qed.

(** The page fetch: three requests at most, the text of the first answer. *)
Lemma fetch_page_content_3 (url : list N) (w : world) :
  fetch_page_content net url 3 w =
  match net (requests w) url with
  | Some r => (Some (text r), sent w)
  | None =>
      match net (S (requests w)) url with
      | Some r => (Some (text r), sent (sleep 2 (sent w)))
      | None =>
          match net (S (S (requests w))) url with
          | Some r => (Some (text r), sent (sleep 2 (sent (sleep 2 (sent w)))))
          | None => (None, sent (sleep 2 (sent (sleep 2 (sent w)))))
          end
      end
  end.
Proof.
  unfold fetch_page_content. simpl.
  destruct (net (requests w) url); [reflexivity |].
  destruct (net (S (requests w)) url); [reflexivity |].
  destruct (net (S (S (requests w))) url); reflexivity.
Qed.

(** C9: [crawl] returns (0, 0) when the page fetch fails or gives an empty
    page, and when the page has no resource item.  Otherwise it tries every
    item in the order of discovery, whatever the earlier results, and returns
    the number of downloads that returned success with the number of items;
    the first is at most the second. *)
Theorem crawl_spec (target_url origin_dir : list N) (w : world) :
  let fetched := fetch_page_content net target_url 3 w in
  let out := crawl net target_url origin_dir w in
  (fst fetched = None -> out = ((0, 0)%nat, snd fetched))
  /\ (fst fetched = Some [] -> out = ((0, 0)%nat, snd fetched))
  /\ (forall html,
        fst fetched = Some html ->
        parse_resource_items target_url html = [] ->
        out = ((0, 0)%nat, snd fetched))
  /\ (forall html,
        fst fetched = Some html -> html <> [] ->
        parse_resource_items target_url html <> [] ->
        let resource_items := parse_resource_items target_url html in
        let each :=
          download_each net origin_dir resource_items (length resource_items) 1 (snd fetched) in
        out = ((successes (fst each), length resource_items), snd each)
        /\ length (fst each) = length resource_items
        /\ (0 <= successes (fst each) <= length resource_items)%nat).
Proof.
  intros fetched out. subst out. unfold crawl.
  change (fetch_page_content net target_url 3 w) with fetched.
  destruct fetched as [html_content w1]. cbn [fst snd].
  split; [intros ->; reflexivity |].
  split; [intros ->; reflexivity |].
  split.
  - intros html -> Hp. destruct (Str.eqb html []); [reflexivity |]. now rewrite Hp.
  - intros html -> Hne Hitems.
    destruct (Str.eqb html []) eqn:Eh; [apply eqb_true_iff in Eh; contradiction |].
    pose proof (download_each_length origin_dir (parse_resource_items target_url html)
                  (length (parse_resource_items target_url html)) 1 w1) as Hlen.
    pose proof (successes_le
                  (fst (download_each net origin_dir (parse_resource_items target_url html)
                          (length (parse_resource_items target_url html)) 1 w1))) as Hle.
    split; [| split; [exact Hlen | lia]].
    destruct (parse_resource_items target_url html) as [|it rest] eqn:Ep; [contradiction |].
    cbv beta match. rewrite download_items_each. reflexivity.
Qed.

End Crawl.

(** A page with two resources, the first of which cannot be downloaded:
    the second one is still fetched, and the crawl reports one of two. *)
Example crawl_one_of_two :
  let page :=
    static_page [mkli (Some (py "https://data.gov.tw/b")) [mkspan false (py "113年")];
                 mkli (Some (py "https://data.gov.tw/a")) [mkspan false (py "114年")]] in
  fst (@crawl basic_unicode page net_one_broken (py "https://data.gov.tw/dataset/14718")
         (py "origin") empty_world) = (1, 2)%nat.
Proof. vm_compute. reflexivity. Qed.

(** ** [validate_csv_structure] and [convert_csv_to_json] *)

Lemma validate_csv_structure_false (df : DataFrame) :
  validate_csv_structure df = false
  <-> rows df = [] \/ (length (columns df) < 4)%nat.
Proof.
  unfold validate_csv_structure, df_empty.
  destruct (columns df) as [|c0 cs]; simpl.
  - split; [intros _; right; lia | reflexivity].
  - destruct (rows df) as [|r0 rs]; simpl.
    + split; [now left | reflexivity].
    + destruct (Nat.ltb_spec (S (length cs)) 4).
      * split; [now right | reflexivity].
      * split; [discriminate | intros [? | ?]; [discriminate | lia]].
Qed.

Section ConvertFile.
Context `{Unicode} `{Pandas}.
Variable read_csv_file : list N -> DataFrame.

(** The loop appends, in the order of the rows, the records of the rows
    whose block did not raise. *)
Lemma convert_rows_omap (row_try : list pyval -> option DayRecord)
    (rs : list (list pyval)) (json_data : list DayRecord) :
  convert_rows row_try rs json_data = json_data ++ omap row_try rs.
Proof.
  revert json_data. induction rs as [|row rs IH]; intros json_data; simpl.
  - now rewrite app_nil_r.
  - destruct (row_try row) as [record|]; rewrite IH; [| reflexivity].
    now rewrite <- app_assoc.
Qed.

Lemma omap_length_filter (row_try : list pyval -> option DayRecord)
    (rs : list (list pyval)) :
  length (omap row_try rs)
  = length (filter (fun row => is_Some (row_try row)) rs).
Proof.
  induction rs as [|row rs IH]; [reflexivity |].
  rewrite filter_cons. cbn [omap list_omap]. destruct (row_try row) as [record|] eqn:E.
  - destruct (decide (is_Some (Some record))) as [_ | Hn].
    + cbn [length]. now rewrite IH.
    + destruct Hn. eauto.
  - destruct (decide (is_Some (@None DayRecord))) as [Hs | _]; [| exact IH].
    now destruct Hs.
Qed.

Lemma omap_total (rs : list (list pyval)) :
  omap (fun row => Some (row_record row)) rs = map row_record rs.
Proof.
  induction rs as [|row rs IH]; [reflexivity |]. cbn [omap list_omap map]. now rewrite IH.
Qed.

Lemma iterrows_length (df : DataFrame) : length (iterrows df) = length (rows df).
Proof. unfold iterrows. apply length_map. Qed.

Lemma convert_csv_to_json_with_eq (row_try : list pyval -> option DayRecord)
    (docs_dir file_path : list N) (docs : gmap (list N) (list DayRecord)) :
  convert_csv_to_json_with row_try read_csv_file docs_dir file_path docs =
  if validate_csv_structure (read_csv_file file_path) then
    match omap row_try (iterrows (read_csv_file file_path)) with
    | [] => (false, docs)
    | written =>
        (true, <[os_path.join docs_dir (generate_json_filename file_path) := written]> docs)
    end
  else (false, docs).
Proof.
  unfold convert_csv_to_json_with.
  destruct (validate_csv_structure (read_csv_file file_path)); [| reflexivity].
  simpl. rewrite convert_rows_omap. simpl.
  now destruct (omap row_try (iterrows (read_csv_file file_path))).
Qed.

(** With the block of the source, which raises on none of the scalars a
    cell holds, an accepted table is written whole. *)
Lemma convert_csv_to_json_all_rows (docs_dir file_path : list N)
    (docs : gmap (list N) (list DayRecord)) :
  validate_csv_structure (read_csv_file file_path) = true ->
  convert_csv_to_json read_csv_file docs_dir file_path docs
  = (true,
     <[os_path.join docs_dir (generate_json_filename file_path)
       := map row_record (iterrows (read_csv_file file_path))]> docs).
Proof.
  intros Hv. unfold convert_csv_to_json. rewrite convert_csv_to_json_with_eq, Hv.
  rewrite omap_total.
  destruct (iterrows (read_csv_file file_path)) as [|row rs] eqn:Er; [| reflexivity].
  assert (Hf : validate_csv_structure (read_csv_file file_path) = false).
  { apply validate_csv_structure_false. left.
    apply length_zero_iff_nil. now rewrite <- iterrows_length, Er. }
  congruence.
Qed.

(** C7: [validate_csv_structure] rejects a table exactly when it has no row
    or fewer than four columns, and [convert_csv_to_json] then fails and
    writes nothing.  On a table it accepts, the loop goes over the rows of
    [iterrows]: whatever the per-row block does, a row whose block raises
    is skipped and the rows around it are still converted; the records
    written are those of the rows that did not raise, in their order and as
    many; and the conversion fails, writing nothing, exactly when no record
    is left.  [convert_csv_to_json] is that loop with the block of the
    source, which raises on no row: it writes one record for every row, and
    fails exactly when the table is rejected. *)
Theorem convert_csv_to_json_spec (docs_dir file_path : list N)
    (docs : gmap (list N) (list DayRecord)) :
  let df := read_csv_file file_path in
  let out := convert_csv_to_json read_csv_file docs_dir file_path docs in
  let json_path := os_path.join docs_dir (generate_json_filename file_path) in
  (validate_csv_structure df = false
   <-> rows df = [] \/ (length (columns df) < 4)%nat)
  /\ (validate_csv_structure df = false -> out = (false, docs))
  /\ (validate_csv_structure df = true ->
      out = (true, <[json_path := map row_record (iterrows df)]> docs)
      /\ length (map row_record (iterrows df)) = length (rows df)
      /\ map row_record (iterrows df) <> [])
  /\ (fst out = false <-> validate_csv_structure df = false)
  /\ out = convert_csv_to_json_with (fun row => Some (row_record row))
             read_csv_file docs_dir file_path docs
  /\ (forall row_try : list pyval -> option DayRecord,
        let out' := convert_csv_to_json_with row_try read_csv_file docs_dir file_path docs in
        let written := omap row_try (iterrows df) in
        (validate_csv_structure df = false -> out' = (false, docs))
        /\ (validate_csv_structure df = true ->
            (forall before row after,
               iterrows df = before ++ row :: after ->
               written = omap row_try before
                         ++ match row_try row with Some record => [record] | None => [] end
                         ++ omap row_try after)
            /\ length written
               = length (filter (fun row => is_Some (row_try row)) (iterrows df))
            /\ (fst out' = false <-> written = [])
            /\ (written = [] -> out' = (false, docs))
            /\ (written <> [] -> out' = (true, <[json_path := written]> docs)))).
Proof.
  intros df out json_path.
  assert (Hrows : validate_csv_structure df = true -> map row_record (iterrows df) <> []).
  { intros Hv E. apply (f_equal length) in E. rewrite length_map, iterrows_length in E.
    apply length_zero_iff_nil in E.
    assert (Hf : validate_csv_structure df = false)
      by (apply validate_csv_structure_false; now left).
    congruence. }
  split; [apply validate_csv_structure_false |].
  split.
  { intros Hv. subst out. unfold convert_csv_to_json.
    rewrite convert_csv_to_json_with_eq. fold df. now rewrite Hv. }
  split.
  { intros Hv. split; [now apply convert_csv_to_json_all_rows |].
    split; [now rewrite length_map, iterrows_length | now apply Hrows]. }
  split.
  { subst out. destruct (validate_csv_structure df) eqn:Hv.
    - rewrite convert_csv_to_json_all_rows by exact Hv. cbn [fst].
      split; discriminate.
    - unfold convert_csv_to_json. rewrite convert_csv_to_json_with_eq. fold df.
      rewrite Hv. cbn [fst]. split; reflexivity. }
  split; [reflexivity |].
  intros row_try out' written. subst out'. rewrite convert_csv_to_json_with_eq.
  fold df. fold written. fold json_path.
  split; [intros ->; reflexivity |].
  intros ->. split; [| split; [apply omap_length_filter |]].
  - intros before row after E. unfold written. rewrite E, omap_app. simpl.
    now destruct (row_try row).
  - clearbody written. destruct written as [|record others]; cbn [fst].
    + repeat split; congruence.
    + repeat split; congruence.
Qed.

End ConvertFile.

(** The second of the three rows raises: the other two are written, in
    their order, and the conversion succeeds. *)
Example convert_csv_to_json_skips_row :
  @convert_csv_to_json_with basic_unicode no_pandas
    (raise_on_nan (@row_record basic_unicode no_pandas))
    (fun _ => three_rows) (py "docs") (py "origin/114年.csv") ∅
  = (true,
     {[ py "docs/2025.json" :=
          [mkDayRecord (py "2025-01-01") (py "三") true (py "開國紀念日");
           mkDayRecord (py "2025-01-02") (py "四") false []] ]}).
Proof. vm_compute. reflexivity. Qed.

(** In a table of numbers only, with a column of floats, every row comes
    as floats: the flag 2 is read as [2.0], which is not a holiday, and the
    date is left to the flexible parser as [20250101.0]. *)
Example convert_csv_to_json_numeric_rows :
  @convert_csv_to_json basic_unicode no_pandas
    (fun _ => numeric_rows) (py "docs") (py "origin/114年.csv") ∅
  = (true,
     {[ py "docs/2025.json" :=
          [mkDayRecord (py "20250101.0") (py "3.0") false [];
           mkDayRecord (py "20250102.0") (py "4.0") false []] ]}).
Proof. vm_compute. reflexivity. Qed.

(** ** [strptime] on ASCII characters and ideographs *)

Lemma first_success_ext {A B : Type} (k1 k2 : A -> option B) (l : list A) :
  (forall x, x ∈ l -> k1 x = k2 x) ->
  datetime.first_success k1 l = datetime.first_success k2 l.
Proof.
  induction l as [|x l IH]; intros Hk; simpl; [reflexivity |].
  rewrite (Hk x (list_elem_of_here _ _)).
  destruct (k2 x); [reflexivity |].
  apply IH. intros y Hy. apply Hk. now apply list_elem_of_further.
Qed.

Lemma simple_suffix (s r : list N) :
  r `suffix_of` s -> forallb simple s = true -> forallb simple r = true.
Proof.
  intros [k ->]. rewrite forallb_app, andb_true_iff. tauto.
Qed.

Lemma suffix_tail (a : N) (s : list N) : s `suffix_of` a :: s.
Proof. now exists [a]. Qed.

Lemma suffix_tail2 (a b : N) (s : list N) : s `suffix_of` a :: b :: s.
Proof. now exists [a; b]. Qed.

Ltac split_candidates Hin :=
  repeat match type of Hin with
         | _ ∈ _ ++ _ => apply elem_of_app in Hin as [Hin | Hin]
         | _ ∈ (if ?b then _ else _) => destruct b
         | _ ∈ match ?o with Some _ => _ | None => _ end => destruct o
         | _ ∈ [] => now apply elem_of_nil in Hin
         | _ ∈ [_] => apply list_elem_of_singleton in Hin; subst
         end.

Lemma match_month_suffix (s : list N) (vr : N * list N) :
  vr ∈ datetime.match_month s -> snd vr `suffix_of` s.
Proof.
  unfold datetime.match_month. destruct s as [|a [|b r]]; intros Hin;
    split_candidates Hin; simpl; auto using suffix_tail, suffix_tail2.
Qed.

Section Candidates.
Context `{Unicode}.

Lemma match_year_suffix (s : list N) (vr : N * list N) :
  vr ∈ datetime.match_year s -> snd vr `suffix_of` s.
Proof.
  unfold datetime.match_year. destruct s as [|a [|b [|c [|e r]]]]; intros Hin;
    split_candidates Hin.
  simpl. now exists [a; b; c; e].
Qed.

Lemma match_day_suffix (s : list N) (vr : N * list N) :
  vr ∈ datetime.match_day s -> snd vr `suffix_of` s.
Proof.
  unfold datetime.match_day. destruct s as [|a [|b r]]; intros Hin;
    split_candidates Hin; simpl; auto using suffix_tail, suffix_tail2.
Qed.

End Candidates.

Section SimpleText.
Context `{Unicode}.

Lemma match_year_simple (s : list N) :
  forallb simple s = true ->
  datetime.match_year s = @datetime.match_year basic_unicode s.
Proof.
  destruct s as [|a [|b [|c [|e r]]]]; try reflexivity. simpl.
  rewrite !andb_true_iff. intros (Ha & Hb & Hc & He & _).
  now rewrite !decimal_simple.
Qed.

Lemma match_day_simple (s : list N) :
  forallb simple s = true ->
  datetime.match_day s = @datetime.match_day basic_unicode s.
Proof.
  destruct s as [|a [|b r]]; try reflexivity. simpl.
  rewrite !andb_true_iff. intros (Ha & Hb & _).
  now rewrite !decimal_simple.
Qed.

(** On such a text the rest of the character database plays no part. *)
Lemma regex_match_simple (items : list datetime.item) (s : list N) (acc : datetime.date) :
  forallb simple s = true ->
  datetime.regex_match items s acc = @datetime.regex_match basic_unicode items s acc.
Proof.
  revert s acc. induction items as [|it items IH]; intros s acc Hs; [reflexivity |].
  destruct it; simpl.
  - rewrite match_year_simple by exact Hs. apply first_success_ext.
    intros vr Hin. apply IH. eapply simple_suffix; [| exact Hs].
    now apply (@match_year_suffix basic_unicode).
  - apply first_success_ext. intros vr Hin. apply IH.
    eapply simple_suffix; [| exact Hs]. now apply match_month_suffix.
  - rewrite match_day_simple by exact Hs. apply first_success_ext.
    intros vr Hin. apply IH. eapply simple_suffix; [| exact Hs].
    now apply (@match_day_suffix basic_unicode).
  - destruct s as [|a r]; [reflexivity |]. destruct (a =? c); [| reflexivity].
    apply IH. simpl in Hs. now apply andb_true_iff in Hs as [_ Hs].
  - reflexivity.
Qed.

Lemma strptime_simple (s fmt : list N) :
  forallb simple s = true ->
  datetime.strptime s fmt = @datetime.strptime basic_unicode s fmt.
Proof. intros Hs. unfold datetime.strptime. now rewrite regex_match_simple. Qed.

Lemma try_formats_simple (s : list N) (fmts : list (list N)) :
  forallb simple s = true ->
  try_formats s fmts = @try_formats basic_unicode s fmts.
Proof.
  intros Hs. induction fmts as [|fmt fmts IH]; simpl; [reflexivity |].
  now rewrite strptime_simple, IH.
Qed.

End SimpleText.

(** ** [strftime] and [strptime] *)

Lemma pad4_value (y : N) :
  y <= 9999 ->
  1000 * (y / 1000 mod 10) + 100 * (y / 100 mod 10) + 10 * (y / 10 mod 10) + y mod 10 = y.
Proof.
  intros Hy.
  pose proof (N.Div0.div_mod y 10) as E1.
  pose proof (N.Div0.div_mod (y / 10) 10) as E2.
  pose proof (N.Div0.div_mod (y / 100) 10) as E3.
  pose proof (N.Div0.div_mod (y / 1000) 10) as E4.
  rewrite N.Div0.div_div in E2, E3, E4. simpl in E2, E3, E4.
  change (10 * 10) with 100 in *. change (100 * 10) with 1000 in *.
  change (1000 * 10) with 10000 in *.
  assert (y / 10000 = 0) by (apply N.div_small; lia).
  lia.
Qed.

Lemma ascii_digit_of (k : N) : k < 10 -> ascii_digit (48 + k) = Some k.
Proof.
  intros Hk. unfold ascii_digit, ascii_isdigit.
  destruct (N.leb_spec 48 (48 + k)); [| lia].
  destruct (N.leb_spec (48 + k) 57); [| lia].
  simpl. f_equal. lia.
Qed.

Lemma digit_lt_10 (n : N) : n mod 10 < 10.
Proof. apply N.mod_lt. discriminate. Qed.

Lemma digits_of_uint_range (u : Decimal.uint) :
  Forall (fun c => 48 <= c <= 57) (Str.digits_of_uint u).
Proof. induction u; simpl; constructor; auto; lia. Qed.

Lemma strftime_ymd_simple (dt : datetime.date) :
  forallb simple (datetime.strftime_ymd dt) = true.
Proof.
  assert (Hd : forall n, simple (48 + n mod 10) = true).
  { intros n. unfold simple. pose proof (digit_lt_10 n).
    destruct (N.ltb_spec (48 + n mod 10) 128); [reflexivity | lia]. }
  unfold datetime.strftime_ymd, datetime.pad2. rewrite forallb_app.
  apply andb_true_iff. split.
  - apply forallb_forall. intros c Hc.
    pose proof (digits_of_uint_range (N.to_uint (datetime.year dt))) as Hr.
    rewrite Forall_forall in Hr. apply list_elem_of_In in Hc. specialize (Hr c Hc).
    unfold simple. destruct (N.ltb_spec c 128); [reflexivity | lia].
  - simpl. now rewrite !Hd.
Qed.

Lemma regex_match_year_basic (y : N) (items : list datetime.item) (rest : list N)
    (acc : datetime.date) :
  y <= 9999 ->
  @datetime.regex_match basic_unicode (datetime.Year :: items)
    (datetime.pad4 y ++ rest) acc
  = @datetime.regex_match basic_unicode items rest
      (datetime.mkdate y (datetime.month acc) (datetime.day acc)).
Proof.
  intros Hy. unfold datetime.pad4. cbn [app datetime.regex_match datetime.match_year].
  cbn [decimal basic_unicode].
  rewrite !ascii_digit_of by apply digit_lt_10.
  cbn [datetime.first_success fst snd]. rewrite pad4_value by exact Hy.
  now destruct (datetime.regex_match items rest _).
Qed.

(** The month and the day, written with two digits, are read back. *)
Definition month_day_read (m d : N) : Prop :=
  forall acc,
    @datetime.regex_match basic_unicode
      [datetime.Lit 45; datetime.Month; datetime.Lit 45; datetime.Day]
      (45 :: datetime.pad2 m ++ 45 :: datetime.pad2 d) acc
    = Some (datetime.mkdate (datetime.year acc) m d, []).

Lemma month_day_read_all :
  Forall (fun m => Forall (month_day_read m) (map N.of_nat (seq 1 31)))
         (map N.of_nat (seq 1 12)).
Proof.
  cbn [map seq].
  repeat match goal with
         | |- Forall _ [] => constructor
         | |- Forall _ (_ :: _) => constructor; cbv beta
         | |- month_day_read _ _ => intros acc; vm_compute; reflexivity
         end.
Qed.

Lemma in_range_seq (lo len n : N) :
  lo <= n < lo + len ->
  n ∈ map N.of_nat (seq (N.to_nat lo) (N.to_nat len)).
Proof.
  intros Hn. apply list_elem_of_In, in_map_iff. exists (N.to_nat n).
  split; [apply N2Nat.id | apply in_seq; lia].
Qed.

(** A year below 1000 is printed with fewer than four digits. *)
Lemma of_N_short (y : N) : y < 1000 -> (length (Str.of_N y) < 4)%nat.
Proof.
  intros Hy.
  assert (Hall : forallb (fun n => (length (Str.of_N n) <? 4)%nat)
                   (map N.of_nat (seq (N.to_nat 0) (N.to_nat 1000))) = true)
    by (vm_compute; reflexivity).
  rewrite forallb_forall in Hall. apply Nat.ltb_lt, Hall.
  apply list_elem_of_In. apply (in_range_seq 0 1000). lia.
Qed.

(** A year of four digits is printed with its four digits. *)
Lemma of_N_pad4 (y : N) : 1000 <= y <= 9999 -> Str.of_N y = datetime.pad4 y.
Proof.
  intros Hy.
  assert (Hall : forallb (fun n => Str.eqb (Str.of_N n) (datetime.pad4 n))
                   (map N.of_nat (seq (N.to_nat 1000) (N.to_nat 9000))) = true)
    by (vm_compute; reflexivity).
  rewrite forallb_forall in Hall. apply eqb_true_iff, Hall.
  apply list_elem_of_In. apply (in_range_seq 1000 9000). lia.
Qed.

Lemma month_day_read_range (m d : N) :
  1 <= m <= 12 -> 1 <= d <= 31 -> month_day_read m d.
Proof.
  intros Hm Hd. pose proof month_day_read_all as Hall.
  rewrite Forall_forall in Hall.
  specialize (Hall m (in_range_seq 1 12 m ltac:(lia))).
  rewrite Forall_forall in Hall.
  exact (Hall d (in_range_seq 1 31 d ltac:(lia))).
Qed.

Lemma valid_ranges (dt : datetime.date) :
  datetime.valid dt = true ->
  1 <= datetime.year dt <= 9999 /\ 1 <= datetime.month dt <= 12
  /\ 1 <= datetime.day dt <= 31.
Proof.
  unfold datetime.valid, datetime.between, datetime.days_in_month.
  rewrite !andb_true_iff, !N.leb_le. intros [[[? ?] [? ?]] [? Hd]].
  repeat split; try assumption.
  repeat match type of Hd with
         | context [if ?b then _ else _] => destruct b
         end; lia.
Qed.

Section RoundTrip.
Context `{Unicode}.

(** What [strftime] prints for a year of four digits, [strptime] reads back
    under the ISO pattern. *)
Lemma strptime_strftime_ymd (dt : datetime.date) :
  datetime.valid dt = true -> 1000 <= datetime.year dt ->
  datetime.strptime (datetime.strftime_ymd dt) (py "%Y-%m-%d") = Some dt.
Proof.
  intros Hv Hy4. rewrite strptime_simple by apply strftime_ymd_simple.
  destruct (valid_ranges dt Hv) as (Hy & Hm & Hd).
  unfold datetime.strptime.
  change (datetime.compile (py "%Y-%m-%d"))
    with [datetime.Year; datetime.Lit 45; datetime.Month; datetime.Lit 45; datetime.Day].
  unfold datetime.strftime_ymd. rewrite of_N_pad4 by lia.
  rewrite regex_match_year_basic by lia.
  rewrite (month_day_read_range _ _ Hm Hd). cbn [datetime.year].
  destruct dt as [y m d]. cbn [datetime.year datetime.month datetime.day] in *.
  now rewrite Hv.
Qed.

End RoundTrip.

(** ** [convert_date_format] *)

Section DateFormat.
Context `{Unicode} `{Pandas}.

Lemma try_formats_none (s : list N) (fmts : list (list N)) :
  try_formats s fmts = None
  <-> forall fmt, fmt ∈ fmts -> datetime.strptime s fmt = None.
Proof.
  induction fmts as [|fmt0 fmts IH]; simpl.
  - split; [intros _ fmt Hin; now apply elem_of_nil in Hin | reflexivity].
  - destruct (datetime.strptime s fmt0) as [dt|] eqn:E0.
    + split; [discriminate |]. intros Hall.
      specialize (Hall fmt0 (list_elem_of_here _ _)). congruence.
    + rewrite IH. split.
      * intros Hall fmt Hin. apply elem_of_cons in Hin as [-> | Hin]; auto.
      * intros Hall fmt Hin. apply Hall. now apply list_elem_of_further.
Qed.

(** The first format that parses decides the result. *)
Lemma try_formats_some (s : list N) (fmts : list (list N)) (dt : datetime.date) :
  try_formats s fmts = Some dt
  <-> exists k fmt,
        fmts !! k = Some fmt /\ datetime.strptime s fmt = Some dt
        /\ forall j fmt', (j < k)%nat -> fmts !! j = Some fmt' ->
                          datetime.strptime s fmt' = None.
Proof.
  induction fmts as [|fmt0 fmts IH]; simpl.
  - split; [discriminate | intros (k & fmt & Hk & _); now destruct k].
  - destruct (datetime.strptime s fmt0) as [dt0|] eqn:E0.
    + split.
      * intros [= ->]. exists 0%nat, fmt0. repeat split; auto. intros j ? Hj. lia.
      * intros ([|k] & fmt & Hk & Hp & Hearlier).
        -- simpl in Hk. congruence.
        -- specialize (Hearlier 0%nat fmt0 ltac:(lia) eq_refl). congruence.
    + rewrite IH. split.
      * intros (k & fmt & Hk & Hp & Hearlier). exists (S k), fmt.
        repeat split; auto. intros [|j] fmt' Hj Hl.
        -- simpl in Hl. congruence.
        -- simpl in Hl. apply (Hearlier j); [lia | exact Hl].
      * intros ([|k] & fmt & Hk & Hp & Hearlier).
        -- simpl in Hk. congruence.
        -- exists k, fmt. repeat split; auto. intros j fmt' Hj Hl.
           apply (Hearlier (S j)); [lia | exact Hl].
Qed.

Lemma strptime_valid (s fmt : list N) (dt : datetime.date) :
  datetime.strptime s fmt = Some dt -> datetime.valid dt = true.
Proof.
  unfold datetime.strptime.
  destruct (datetime.regex_match _ _ _) as [[dt0 [|c r]]|]; try discriminate.
  destruct (datetime.valid dt0) eqn:Ev; [| discriminate]. congruence.
Qed.

(** X21: [convert_date_format] holds five patterns in the order Y/M/D,
    Y-M-D, Y年M月D日, M/D/Y, D/M/Y.  On the stripped input, the first of
    them that parses decides the result, which is the parsed date, a date
    that exists, as [strftime] prints it.  For a year of four digits that is
    the form YYYY-MM-DD, ten characters, and read under the pattern Y-M-D
    the result gives the date back; for a year below 1000 the result is
    shorter than ten characters.  When no pattern parses, the result is
    what the flexible parser gives, and when that fails too, the stripped
    input itself.  The function has a result on every input. *)
Theorem convert_date_format_spec (date_str : list N) :
  let s := Str.strip date_str in
  date_formats
  = [py "%Y/%m/%d"; py "%Y-%m-%d"; py "%Y年%m月%d日"; py "%m/%d/%Y"; py "%d/%m/%Y"]
  /\ (forall k fmt dt,
        date_formats !! k = Some fmt ->
        datetime.strptime s fmt = Some dt ->
        (forall j fmt', (j < k)%nat -> date_formats !! j = Some fmt' ->
                        datetime.strptime s fmt' = None) ->
        convert_date_format (VStr date_str) = datetime.strftime_ymd dt
        /\ datetime.valid dt = true
        /\ (1000 <= datetime.year dt ->
            convert_date_format (VStr date_str)
            = datetime.pad4 (datetime.year dt)
              ++ 45 :: datetime.pad2 (datetime.month dt)
              ++ 45 :: datetime.pad2 (datetime.day dt)
            /\ length (convert_date_format (VStr date_str)) = 10%nat
            /\ datetime.strptime (convert_date_format (VStr date_str)) (py "%Y-%m-%d")
               = Some dt)
        /\ (datetime.year dt < 1000 ->
            (length (convert_date_format (VStr date_str)) < 10)%nat))
  /\ ((forall fmt, fmt ∈ date_formats -> datetime.strptime s fmt = None) ->
      (forall iso, to_datetime_ymd s = Some iso -> convert_date_format (VStr date_str) = iso)
      /\ (to_datetime_ymd s = None -> convert_date_format (VStr date_str) = s))
  /\ (convert_date_format (VStr date_str) = s
      \/ (exists iso, to_datetime_ymd s = Some iso /\ convert_date_format (VStr date_str) = iso)
      \/ (exists fmt dt, fmt ∈ date_formats /\ datetime.strptime s fmt = Some dt
                         /\ convert_date_format (VStr date_str) = datetime.strftime_ymd dt)).
Proof.
  intros s. split; [reflexivity |]. unfold convert_date_format. cbn [py_str]. fold s.
  split; [| split].
  - intros k fmt dt Hk Hp Hearlier.
    assert (Ht : try_formats s date_formats = Some dt).
    { apply try_formats_some. exists k, fmt. auto. }
    rewrite Ht. pose proof (strptime_valid _ _ _ Hp) as Hv.
    destruct (valid_ranges dt Hv) as (Hy & _ & _).
    split; [reflexivity |]. split; [exact Hv |]. split.
    + intros Hy4. split; [| split; [| now apply strptime_strftime_ymd]].
      * unfold datetime.strftime_ymd. now rewrite of_N_pad4 by lia.
      * unfold datetime.strftime_ymd. rewrite of_N_pad4 by lia. reflexivity.
    + intros Hy3. unfold datetime.strftime_ymd. rewrite length_app.
      pose proof (of_N_short _ Hy3). cbn [length datetime.pad2 app]. lia.
  - intros Hnone. apply try_formats_none in Hnone. rewrite Hnone.
    split; [intros iso -> | intros ->]; reflexivity.
  - destruct (try_formats s date_formats) as [dt|] eqn:Et.
    + right. right. apply try_formats_some in Et as (k & fmt & Hk & Hp & _).
      exists fmt, dt. repeat split; [| exact Hp]. now apply list_elem_of_lookup_2 in Hk.
    + destruct (to_datetime_ymd s) as [iso|]; [right; left; eauto | now left].
Qed.

Ltac parse_date :=
  unfold convert_date_format; cbn [py_str];
  match goal with
  | |- context [Str.strip ?s] =>
      let t := eval vm_compute in (Str.strip s) in
      change (Str.strip s) with t
  end;
  rewrite try_formats_simple by (vm_compute; reflexivity);
  match goal with
  | |- context [@try_formats basic_unicode ?s ?fmts] =>
      let r := eval vm_compute in (@try_formats basic_unicode s fmts) in
      change (@try_formats basic_unicode s fmts) with r
  end;
  cbv iota beta.

(** The literals of the specification, one for each pattern; the order of
    the patterns decides between month and day; a date that does not exist
    is left to the flexible parser. *)
Example convert_date_format_literals :
  convert_date_format (VStr (py "2024/1/1")) = py "2024-01-01"
  /\ convert_date_format (VStr (py " 2024-01-01 ")) = py "2024-01-01"
  /\ convert_date_format (VStr (py "2024年1月1日")) = py "2024-01-01"
  /\ convert_date_format (VStr (py "1/1/2024")) = py "2024-01-01"
  /\ convert_date_format (VStr (py "2/1/2024")) = py "2024-02-01"
  /\ convert_date_format (VStr (py "13/1/2024")) = py "2024-01-13"
  /\ convert_date_format (VStr (py "2024/2/30"))
     = match to_datetime_ymd (py "2024/2/30") with
       | Some iso => iso
       | None => py "2024/2/30"
       end.
Proof.
  repeat split; parse_date; vm_compute; reflexivity.
Qed.

(** C2: the documentation of [convert_date_format] and the claim promise the
    form YYYY-MM-DD for a date a pattern reads.  The input [0999/1/1] is
    read by the first pattern as the first of January of the year 999, and
    the result is [999-01-01]: nine characters, the year with three digits,
    a text that the pattern Y-M-D does not read. *)
Theorem convert_date_format_year_999 :
  datetime.strptime (Str.strip (py "0999/1/1")) (py "%Y/%m/%d")
  = Some (datetime.mkdate 999 1 1)
  /\ convert_date_format (VStr (py "0999/1/1")) = py "999-01-01"
  /\ length (convert_date_format (VStr (py "0999/1/1"))) = 9%nat
  /\ datetime.strptime (convert_date_format (VStr (py "0999/1/1"))) (py "%Y-%m-%d") = None.
Proof.
  assert (E : convert_date_format (VStr (py "0999/1/1")) = py "999-01-01")
    by (parse_date; vm_compute; reflexivity).
  rewrite E. repeat split.
  - rewrite strptime_simple by (vm_compute; reflexivity). vm_compute. reflexivity.
  - rewrite strptime_simple by (vm_compute; reflexivity). vm_compute. reflexivity.
Qed.

End DateFormat.

(** * Further properties of the crawler *)

(** ** [fetch_page_content] *)

Section FetchPage.
Variable net : network.

Lemma fetch_attempts_answer (url : list N) (max_retries remaining k : nat) (w : world)
    (r : response) :
  (remaining <= max_retries)%nat -> (k < remaining)%nat ->
  net (requests w + k)%nat url = Some r ->
  (forall j, (j < k)%nat -> net (requests w + j)%nat url = None) ->
  fetch_attempts net url max_retries remaining w
  = (Some (text r), mkworld (files w) (requests w + k + 1) (slept w + 2 * k)).
Proof.
  revert k w. induction remaining as [|n IH]; intros k w Hle Hk Hr Hfail; [lia |].
  cbn [fetch_attempts]. destruct k as [|k].
  - rewrite Nat.add_0_r in Hr. rewrite Hr. unfold sent. do 2 f_equal; lia.
  - pose proof (Hfail 0%nat ltac:(lia)) as Hfirst. rewrite Nat.add_0_r in Hfirst. rewrite Hfirst.
    destruct (Nat.ltb_spec (max_retries - S n) (max_retries - 1)); [| lia].
    rewrite (IH k); cbn [requests files slept sleep sent]; try lia.
    + do 2 f_equal; lia.
    + rewrite <- Hr. f_equal. lia.
    + intros j Hj. rewrite <- (Hfail (S j)) by lia. f_equal. lia.
Qed.

Lemma fetch_attempts_no_answer (url : list N) (max_retries remaining : nat) (w : world) :
  (remaining <= max_retries)%nat ->
  (forall j, (j < remaining)%nat -> net (requests w + j)%nat url = None) ->
  fetch_attempts net url max_retries remaining w
  = (None, mkworld (files w) (requests w + remaining) (slept w + 2 * (remaining - 1))).
Proof.
  revert w. induction remaining as [|n IH]; intros w Hle Hfail.
  - destruct w. cbn. do 2 f_equal; lia.
  - cbn [fetch_attempts].
    pose proof (Hfail 0%nat ltac:(lia)) as Hfirst. rewrite Nat.add_0_r in Hfirst. rewrite Hfirst.
    destruct (Nat.ltb_spec (max_retries - S n) (max_retries - 1)).
    + rewrite IH; cbn [requests files slept sleep sent]; try lia.
      * do 2 f_equal; lia.
      * intros j Hj. rewrite <- (Hfail (S j)) by lia. f_equal. lia.
    + assert (n = 0%nat) by lia. subst n. unfold sent. do 2 f_equal; lia.
Qed.

(** X1: [fetch_page_content] sends requests until one is answered, at most
    [max_retries] of them, and returns the text of the first answer; it
    sleeps two seconds after each failed request but the last one allowed,
    and it returns [None] exactly when none of the [max_retries] requests is
    answered.  It never touches the staging directory. *)
Theorem fetch_page_content_first_answer (url : list N) (max_retries : nat) (w : world) :
  let out := fetch_page_content net url max_retries w in
  files (snd out) = files w
  /\ (forall k r,
        (k < max_retries)%nat ->
        net (requests w + k)%nat url = Some r ->
        (forall j, (j < k)%nat -> net (requests w + j)%nat url = None) ->
        out = (Some (text r), mkworld (files w) (requests w + k + 1) (slept w + 2 * k)))
  /\ (fst out = None
      <-> forall j, (j < max_retries)%nat -> net (requests w + j)%nat url = None)
  /\ (fst out = None ->
      out = (None,
             mkworld (files w) (requests w + max_retries)
                     (slept w + 2 * (max_retries - 1)))).
Proof.
  intros out. subst out. unfold fetch_page_content.
  assert (Hcases :
    (forall j, (j < max_retries)%nat -> net (requests w + j)%nat url = None)
    \/ exists k r, (k < max_retries)%nat /\ net (requests w + k)%nat url = Some r
                   /\ forall j, (j < k)%nat -> net (requests w + j)%nat url = None).
  { clear. induction max_retries as [|n IH].
    - left. intros j Hj. lia.
    - destruct IH as [Hnone | (k & r & Hk & Hr & Hfail)].
      + destruct (net (requests w + n)%nat url) as [r|] eqn:En.
        * right. exists n, r. repeat split; auto.
        * left. intros j Hj. destruct (Nat.eq_dec j n) as [-> | Hne]; [exact En |].
          apply Hnone. lia.
      + right. exists k, r. repeat split; auto. }
  assert (Hans : forall k r,
            (k < max_retries)%nat ->
            net (requests w + k)%nat url = Some r ->
            (forall j, (j < k)%nat -> net (requests w + j)%nat url = None) ->
            fetch_attempts net url max_retries max_retries w
            = (Some (text r), mkworld (files w) (requests w + k + 1) (slept w + 2 * k))).
  { intros k r Hk Hr Hfail. now apply fetch_attempts_answer. }
  destruct Hcases as [Hnone | (k & r & Hk & Hr & Hfail)].
  - pose proof (fetch_attempts_no_answer url max_retries max_retries w (le_n _) Hnone) as E.
    split; [now rewrite E |]. split; [exact Hans |]. split; [split |].
    + intros _. exact Hnone.
    + intros _. now rewrite E.
    + intros _. exact E.
  - pose proof (Hans k r Hk Hr Hfail) as E.
    split; [now rewrite E |]. split; [exact Hans |]. split; [split |].
    + rewrite E. discriminate.
    + intros Hnone. rewrite Hnone in Hr by exact Hk. discriminate.
    + rewrite E. discriminate.
Qed.

End FetchPage.

(** ** Effects of [download_file] and [crawl] *)


Section DownloadEffects.
Context `{Unicode}.
Variable net : network.

Lemma attempt_download_slept (path url : list N) (w w1 : world) (ok : bool) :
  attempt_download net path url w = (ok, w1) -> slept w1 = slept w.
Proof.
  unfold attempt_download. destruct (net (requests w) url) as [r|].
  - destruct (broken r); [now intros [= <- <-] |].
    destruct (length (concat (chunks r)) =? 0)%nat; now intros [= <- <-].
  - now intros [= <- <-].
Qed.

Lemma cleanup_slept (path : list N) (w : world) : slept (cleanup path w) = slept w.
Proof. unfold cleanup. now destruct (exists_file path w). Qed.

(** The loop gives up after exactly [remaining] requests, three seconds
    apart, and ends without a result only when it has no iteration. *)
Lemma download_attempts_budget (path url : list N) (max_retries remaining : nat)
    (w w' : world) (r : option bool) :
  (remaining <= max_retries)%nat ->
  files w !! path = None ->
  download_attempts net path url max_retries remaining w = (r, w') ->
  (r = None <-> remaining = 0%nat)
  /\ (r = Some false ->
      requests w' = (requests w + remaining)%nat
      /\ slept w' = (slept w + 3 * (remaining - 1))%nat).
Proof.
  revert w. induction remaining as [|k IH]; intros w Hle Hnone; cbn [download_attempts].
  - intros [= <- <-]. split; [tauto | discriminate].
  - destruct (attempt_download net path url w) as [ok w1] eqn:Ea.
    pose proof (attempt_download_slept _ _ _ _ _ Ea) as Hs.
    destruct ok.
    + intros [= <- <-]. split; [split; [discriminate | lia] | discriminate].
    + destruct (attempt_download_false net _ _ _ _ Ea Hnone) as [Hf Hr].
      destruct (Nat.ltb_spec (max_retries - S k) (max_retries - 1)).
      * intros Hrec. apply IH in Hrec; [| lia | cbn; now rewrite Hf].
        cbn [requests slept sleep] in Hrec. rewrite Hr, cleanup_slept, Hs in Hrec.
        destruct Hrec as [Hn Hb]. split.
        -- split; [intros E; apply Hn in E; lia | discriminate].
        -- intros E. destruct (Hb E). lia.
      * intros [= <- <-]. rewrite Hr, cleanup_slept, Hs.
        split; [split; [discriminate | lia] |]. intros _. lia.
Qed.

Lemma download_file_files (origin_dir url filename : list N) (max_retries : nat)
    (w : world) :
  let path := file_path origin_dir filename in
  let out := download_file net origin_dir url filename max_retries w in
  files (snd out) = files w
  \/ (fst out = Some true /\ files w !! path = None
      /\ exists content, content <> [] /\ files (snd out) = <[path := content]> (files w)).
Proof.
  intros path out. subst out. unfold download_file. fold path.
  destruct (exists_file path w) eqn:Ex; [now left |].
  apply exists_file_false in Ex.
  destruct (download_attempts net path url max_retries max_retries w) as [r w'] eqn:Ed.
  destruct (download_attempts_outcome net _ _ _ _ _ _ _ Ex Ed)
    as [_ [[-> (content & Hc & Hf)] | [_ Hf]]].
  - right. cbn [fst snd]. split; [reflexivity |]. split; [exact Ex |]. eauto.
  - now left.
Qed.

Lemma download_file_keeps (origin_dir url filename : list N) (max_retries : nat)
    (w : world) :
  files w ⊆ files (snd (download_file net origin_dir url filename max_retries w)).
Proof.
  destruct (download_file_files origin_dir url filename max_retries w)
    as [-> | (_ & Hfree & content & _ & ->)]; [reflexivity |].
  now apply insert_subseteq.
Qed.

(** X2: [download_file] changes at most the file at its target path: either
    the staging directory is left as it was, or the call returned success
    and added, at a path that was free, a file that is not empty.  Files at
    other paths, and files already staged, are never touched. *)
Theorem download_file_effect (origin_dir url filename : list N) (max_retries : nat)
    (w : world) :
  let path := file_path origin_dir filename in
  let out := download_file net origin_dir url filename max_retries w in
  (files (snd out) = files w
   \/ (fst out = Some true /\ files w !! path = None
       /\ exists content, content <> [] /\ files (snd out) = <[path := content]> (files w)))
  /\ (forall p, p <> path -> files (snd out) !! p = files w !! p)
  /\ files w ⊆ files (snd out).
Proof.
  intros path out.
  pose proof (download_file_files origin_dir url filename max_retries w) as Hcases.
  cbv zeta in Hcases. fold path out in Hcases.
  split; [exact Hcases |]. split; [| apply download_file_keeps].
  intros p Hp. destruct Hcases as [-> | (_ & _ & content & _ & ->)]; [reflexivity |].
  now rewrite lookup_insert_ne.
Qed.

(** X3: the result of [download_file] is [None] only when no attempt is
    allowed and the file is missing; and a result [False] means that
    [max_retries] requests were sent, one per attempt, with three seconds of
    sleep between two attempts and none after the last. *)
Theorem download_file_budget (origin_dir url filename : list N) (max_retries : nat)
    (w : world) :
  let path := file_path origin_dir filename in
  let out := download_file net origin_dir url filename max_retries w in
  (fst out = None <-> files w !! path = None /\ max_retries = 0%nat)
  /\ (fst out = Some false ->
      (0 < max_retries)%nat
      /\ requests (snd out) = (requests w + max_retries)%nat
      /\ slept (snd out) = (slept w + 3 * (max_retries - 1))%nat).
Proof.
  intros path out. subst out. unfold download_file. fold path.
  destruct (exists_file path w) eqn:Ex.
  - apply exists_file_true in Ex. cbn [fst snd]. split; [| discriminate].
    split; [discriminate |]. intros [Hnone _]. rewrite Hnone in Ex. now destruct Ex.
  - apply exists_file_false in Ex.
    destruct (download_attempts net path url max_retries max_retries w) as [r w'] eqn:Ed.
    destruct (download_attempts_budget _ _ _ _ _ _ _ (le_n _) Ex Ed) as [Hn Hb].
    cbn [fst snd]. split.
    + rewrite Hn. tauto.
    + intros E. destruct (Hb E) as [Hr Hs]. repeat split; auto.
      destruct max_retries; [| lia]. assert (r = None) by now apply Hn. congruence.
Qed.

End DownloadEffects.

Section CrawlEffects.
Context `{Unicode} `{WebLibs}.
Variable net : network.

Lemma fetch_page_content_3_effect (url : list N) (w : world) :
  files (snd (fetch_page_content net url 3 w)) = files w
  /\ (requests w <= requests (snd (fetch_page_content net url 3 w)) <= requests w + 3)%nat.
Proof.
  rewrite fetch_page_content_3.
  destruct (net (requests w) url); [cbn; split; [reflexivity | lia] |].
  destruct (net (S (requests w)) url); [cbn; split; [reflexivity | lia] |].
  destruct (net (S (S (requests w))) url); cbn; split; try reflexivity; lia.
Qed.

Lemma download_each_effect (origin_dir : list N) (resource_items : list (list N * list N))
    (total_count i : nat) (w : world) :
  files w ⊆ files (snd (download_each net origin_dir resource_items total_count i w))
  /\ (requests w
      <= requests (snd (download_each net origin_dir resource_items total_count i w))
      <= requests w + 3 * length resource_items)%nat.
Proof.
  revert i w. induction resource_items as [|[link filename] rest IH]; intros i w.
  - cbn. split; [reflexivity | lia].
  - cbn [download_each length snd].
    pose proof (download_file_keeps net origin_dir link filename 3 w) as Hk.
    destruct (download_file net origin_dir link filename 3 w) as [r w1] eqn:Ed.
    destruct (download_file_outcome net _ _ _ _ _ _ _ Ed) as [Hreq _].
    cbn [snd] in *.
    set (w2 := if (i <? total_count)%nat then sleep 1 w1 else w1).
    assert (Hw2 : files w2 = files w1 /\ requests w2 = requests w1)
      by (unfold w2; destruct (i <? total_count)%nat; split; reflexivity).
    destruct Hw2 as [Hf2 Hr2]. destruct (IH (S i) w2) as [Hsub Hb].
    rewrite Hf2 in Hsub. rewrite Hr2 in Hb. split.
    + etransitivity; [exact Hk | exact Hsub].
    + lia.
Qed.

(** What no download changed is as it was. *)
Lemma download_each_nothing (origin_dir : list N) (resource_items : list (list N * list N))
    (total_count i : nat) (w : world) :
  successes (fst (download_each net origin_dir resource_items total_count i w)) = 0%nat ->
  files (snd (download_each net origin_dir resource_items total_count i w)) = files w.
Proof.
  revert i w. induction resource_items as [|[link filename] rest IH]; intros i w.
  - reflexivity.
  - cbn [download_each fst snd]. rewrite successes_cons.
    pose proof (download_file_files net origin_dir link filename 3 w) as Hc.
    cbv zeta in Hc.
    destruct (download_file net origin_dir link filename 3 w) as [r w1] eqn:Ed.
    cbn [fst snd] in *. intros Hz.
    assert (Hr : truthy r = false) by (destruct (truthy r); [lia | reflexivity]).
    assert (Hz' : successes
                    (fst (download_each net origin_dir rest total_count (S i)
                            (if (i <? total_count)%nat then sleep 1 w1 else w1))) = 0%nat)
      by (rewrite Hr in Hz; exact Hz).
    rewrite (IH _ _ Hz').
    destruct Hc as [Hsame | (-> & _)]; [| discriminate Hr].
    rewrite <- Hsame. now destruct (i <? total_count)%nat.
Qed.

Lemma crawl_cases (target_url origin_dir : list N) (w : world) :
  let fetched := fetch_page_content net target_url 3 w in
  crawl net target_url origin_dir w = ((0, 0)%nat, snd fetched)
  \/ exists resource_items,
       crawl net target_url origin_dir w
       = ((successes
             (fst (download_each net origin_dir resource_items (length resource_items) 1
                     (snd fetched))),
           length resource_items),
          snd (download_each net origin_dir resource_items (length resource_items) 1
                 (snd fetched))).
Proof.
  intros fetched. unfold crawl. fold fetched.
  destruct fetched as [[html|] w1]; cbn [snd]; [| now left].
  destruct (Str.eqb html []); [now left |].
  destruct (parse_resource_items target_url html) as [|it rest] eqn:Ep; [now left |].
  right. exists (it :: rest). now rewrite download_items_each.
Qed.

(** X4: [crawl] only adds to the staging directory: every file staged
    before it is there afterwards with the same content.  It sends at most
    three requests for the page and three for each resource it found. *)
Theorem crawl_keeps_staged_files (target_url origin_dir : list N) (w : world) :
  let out := crawl net target_url origin_dir w in
  files w ⊆ files (snd out)
  /\ (requests w <= requests (snd out) <= requests w + 3 + 3 * snd (fst out))%nat.
Proof.
  intros out. subst out.
  destruct (fetch_page_content_3_effect target_url w) as [Hf Hr].
  destruct (crawl_cases target_url origin_dir w) as [-> | (items & ->)]; cbn [fst snd].
  - rewrite Hf. split; [reflexivity | lia].
  - destruct (download_each_effect origin_dir items (length items) 1
                (snd (fetch_page_content net target_url 3 w))) as [Hsub Hb].
    rewrite Hf in Hsub. split; [exact Hsub | lia].
Qed.

(** X5: a crawl that reports no successful download leaves the staging
    directory exactly as it found it: whatever the failures were, nothing
    partial or empty stays behind. *)
Theorem crawl_without_success (target_url origin_dir : list N) (w : world) :
  let out := crawl net target_url origin_dir w in
  fst (fst out) = 0%nat -> files (snd out) = files w.
Proof.
  intros out. subst out.
  destruct (fetch_page_content_3_effect target_url w) as [Hf _].
  destruct (crawl_cases target_url origin_dir w) as [-> | (items & ->)]; cbn [fst snd].
  - intros _. exact Hf.
  - intros Hz. rewrite download_each_nothing by exact Hz. exact Hf.
Qed.

End CrawlEffects.

Lemma crawl_without_success_witness :
  files (snd (@crawl basic_unicode
                (static_page [mkli (Some (py "https://data.gov.tw/b"))
                                   [mkspan false (py "113年")]])
                net_one_broken (py "https://data.gov.tw/dataset/14718") (py "origin")
                empty_world))
  = files empty_world.
Proof.
  apply (@crawl_without_success basic_unicode
           (static_page [mkli (Some (py "https://data.gov.tw/b"))
                              [mkspan false (py "113年")]])
           net_one_broken).
  vm_compute. reflexivity.
Defined.

(** ** The sanitized name *)

Lemma drop_while_none (f : N -> bool) (s : list N) :
  Forall (fun c => f c = false) s -> Str.drop_while f s = s.
Proof. destruct 1 as [|c s Hc _]; simpl; [reflexivity | now rewrite Hc]. Qed.

Lemma rstrip_end (s : list N) (c : N) :
  isspace c = false -> Str.rstrip (s ++ [c]) = s ++ [c].
Proof.
  intros Hc. unfold Str.rstrip. rewrite rev_app_distr. simpl. rewrite Hc. simpl.
  now rewrite rev_involutive.
Qed.

Section SanitizedName.
Context `{Unicode}.

Lemma filter_keep_all (s : list N) :
  Forall (fun c => keep_char c = true) s ->
  filter (fun c => keep_char c = true) s = s.
Proof.
  induction 1 as [|c s Hc _ IH]; [reflexivity |].
  now rewrite filter_cons_True, IH.
Qed.

Lemma keep_csv_suffix : Forall (fun c => keep_char c = true) (py ".csv").
Proof.
  assert (Hk : forall c, simple c = true -> @keep_char basic_unicode c = true ->
                         keep_char c = true).
  { intros c Hs Hb. now rewrite keep_char_simple. }
  repeat constructor; apply Hk; reflexivity.
Qed.

Lemma separator_dropped : keep_char os_path.sep = false.
Proof. rewrite keep_char_simple by reflexivity. reflexivity. Qed.

Lemma safe_filename_kept (filename : list N) :
  Forall (fun c => keep_char c = true) (safe_filename filename).
Proof.
  assert (Hname : Forall (fun c => keep_char c = true)
                    (Str.rstrip (filter (fun c => keep_char c = true) filename))).
  { destruct (rstrip_split (filter (fun c => keep_char c = true) filename))
      as (ws & E & _).
    assert (Hall : Forall (fun c => keep_char c = true)
                     (filter (fun c => keep_char c = true) filename)).
    { apply Forall_forall. intros c Hc. now apply list_elem_of_filter in Hc as [Hc _]. }
    rewrite E in Hall. now apply Forall_app in Hall as [Hall _]. }
  unfold safe_filename. destruct (Str.endswith _ _); [exact Hname |].
  apply Forall_app. split; [exact Hname | apply keep_csv_suffix].
Qed.

(** X6: sanitizing is idempotent: the sanitized name is its own sanitized
    name, so a staged file keeps its name when it is asked for again under
    the name it was staged with. *)
Theorem safe_filename_idempotent (filename : list N) :
  safe_filename (safe_filename filename) = safe_filename filename.
Proof.
  pose proof (safe_filename_kept filename) as Hkept.
  destruct (safe_filename_csv filename) as [stem Estem].
  unfold safe_filename at 1. rewrite (filter_keep_all _ Hkept).
  assert (Hr : Str.rstrip (safe_filename filename) = safe_filename filename).
  { rewrite Estem. change (py ".csv") with ([46; 99; 115] ++ [118]).
    rewrite app_assoc. now apply rstrip_end. }
  rewrite Hr.
  assert (He : Str.endswith (safe_filename filename) (py ".csv") = true)
    by (apply endswith_suffix; now exists stem).
  now rewrite He.
Qed.

(** X7: the sanitized name holds no path separator, so the staging path
    names a file directly inside the staging directory: its base name is
    the sanitized name, whatever name the page gave. *)
Theorem file_path_stays_in_origin_dir (origin_dir filename : list N) :
  (os_path.sep ∉ safe_filename filename)
  /\ os_path.basename (file_path origin_dir filename) = safe_filename filename
  /\ (file_path origin_dir filename = safe_filename filename
      \/ file_path origin_dir filename = origin_dir ++ safe_filename filename
      \/ file_path origin_dir filename
         = origin_dir ++ os_path.sep :: safe_filename filename).
Proof.
  assert (Hsep : os_path.sep ∉ safe_filename filename).
  { intros Hin. pose proof (safe_filename_kept filename) as Hkept.
    rewrite Forall_forall in Hkept. specialize (Hkept _ Hin).
    rewrite separator_dropped in Hkept. discriminate. }
  split; [exact Hsep |]. unfold file_path, os_path.join.
  destruct (Str.startswith (safe_filename filename) [os_path.sep]) eqn:Es.
  { apply startswith_prefix in Es as [k Ek]. destruct Hsep. rewrite Ek.
    apply list_elem_of_here. }
  destruct (Str.eqb origin_dir [] || Str.endswith origin_dir [os_path.sep]) eqn:Eo.
  - split; [| now right; left].
    apply orb_true_iff in Eo as [Eo | Eo].
    + apply eqb_true_iff in Eo. subst origin_dir. now apply basename_plain.
    + apply endswith_suffix in Eo as [d ->]. rewrite <- app_assoc.
      now apply basename_dir.
  - split; [now apply basename_dir | now right; right].
Qed.

End SanitizedName.

(** ** Which resources are returned *)

Section ParseComplete.
Context `{WebLibs}.

Lemma parse_items_length (target_url : list N) (li_elements : list li_element)
    (resource_items : list (list N * list N)) :
  (length (parse_items target_url li_elements resource_items)
   <= length resource_items + length (filter (fun li => has_link li = true) li_elements))%nat.
Proof.
  revert resource_items.
  induction li_elements as [|li rest IH]; intros resource_items; cbn [parse_items].
  - cbn. lia.
  - rewrite filter_cons.
    destruct (decide (has_link li = true)) as [Hl|Hl]; unfold has_link in Hl;
      destruct (href li) as [link|]; try discriminate; try apply IH.
    + destruct (Str.eqb link []); [discriminate |]. cbn [length].
      destruct (item_filename _ _ _) as [filename|];
        [| etransitivity; [apply IH |]; lia].
      destruct (negb (Str.contains _ _)); [| etransitivity; [apply IH |]; lia].
      destruct (full_link target_url link) as [link'|];
        [| etransitivity; [apply IH |]; lia].
      etransitivity; [apply IH |]. rewrite length_app. cbn. lia.
    + destruct (Str.eqb link []); [apply IH | now cbn in Hl].
Qed.

Lemma parse_items_keeps (target_url : list N) (li_elements : list li_element)
    (resource_items : list (list N * list N)) (it : list N * list N) :
  it ∈ resource_items -> it ∈ parse_items target_url li_elements resource_items.
Proof.
  intros Hin. destruct (parse_items_added target_url li_elements resource_items)
    as (added & -> & _). apply elem_of_app. now left.
Qed.

Lemma parse_items_labelled (target_url : list N) (li_elements : list li_element)
    (resource_items : list (list N * list N)) (li : li_element)
    (link link' name : list N) :
  li ∈ li_elements -> href li = Some link -> link <> [] ->
  span_filename (spans li) = Some name ->
  Str.contains (py "Google") name = false ->
  full_link target_url link = Some link' ->
  (link', name) ∈ parse_items target_url li_elements resource_items.
Proof.
  intros Hin Hh Hl Hs Hg Hf. revert resource_items.
  induction li_elements as [|li0 rest IH]; intros resource_items;
    [now apply elem_of_nil in Hin |].
  apply elem_of_cons in Hin as [<- | Hin].
  - cbn [parse_items]. rewrite Hh. apply eqb_false_iff in Hl. rewrite Hl.
    unfold item_filename. rewrite Hs, Hg, Hf. cbn [negb].
    apply parse_items_keeps. apply elem_of_app. right. apply list_elem_of_here.
  - specialize (IH Hin). cbn [parse_items].
    destruct (href li0) as [l0|]; [| apply IH].
    destruct (Str.eqb l0 []); [apply IH |].
    destruct (item_filename _ _ _) as [filename|]; [| apply IH].
    destruct (negb (Str.contains _ _)); [| apply IH].
    destruct (full_link target_url l0); apply IH.
Qed.

(** Nothing is returned for an element on whose link [urljoin] raises. *)
Lemma parse_items_raised (target_url : list N) (li_elements : list li_element)
    (resource_items : list (list N * list N)) (k : nat) (link name : list N) :
  parse_items target_url li_elements resource_items !! k = Some (link, name) ->
  (length resource_items <= k)%nat ->
  exists li l, li ∈ li_elements /\ href li = Some l
               /\ full_link target_url l = Some link.
Proof.
  intros Hk Hle.
  destruct (parse_items_added target_url li_elements resource_items)
    as (added & E & Hadded).
  rewrite E, lookup_app_r in Hk by exact Hle.
  destruct (Hadded _ _ _ Hk) as (_ & li & l & Hin & Hh & _ & _ & Hf). eauto.
Qed.

(** X8: [parse_resource_items] returns every resource element that has a
    link and a label (a span outside a button, not empty, not [CSV]) without
    [Google] in it, under that label, provided [urljoin] does not raise on
    the link; an element on whose link it raises gives no item.  It never
    returns more items than the page has elements with a link. *)
Theorem parse_resource_items_complete (target_url html_content : list N) :
  (forall li link link' name,
     li ∈ find_resource_items html_content ->
     href li = Some link -> link <> [] ->
     span_filename (spans li) = Some name ->
     Str.contains (py "Google") name = false ->
     full_link target_url link = Some link' ->
     (link', name) ∈ parse_resource_items target_url html_content)
  /\ (forall k link name,
        parse_resource_items target_url html_content !! k = Some (link, name) ->
        exists li l, li ∈ find_resource_items html_content /\ href li = Some l
                     /\ full_link target_url l = Some link)
  /\ (length (parse_resource_items target_url html_content)
      <= length (filter (fun li => has_link li = true) (find_resource_items html_content))
      <= length (find_resource_items html_content))%nat.
Proof.
  split; [| split].
  - intros li link link' name. apply parse_items_labelled.
  - intros k link name Hk. unfold parse_resource_items in Hk.
    apply (parse_items_raised _ _ _ _ _ _ Hk). cbn. lia.
  - split; [apply (parse_items_length target_url _ []) | apply length_filter].
Qed.

End ParseComplete.

(** * Further properties of the converter *)

(** ** Printing integers *)

Lemma digits_of_uint_inj (u u' : Decimal.uint) :
  Str.digits_of_uint u = Str.digits_of_uint u' -> u = u'.
Proof.
  revert u'. induction u; destruct u'; simpl; try discriminate;
    try reflexivity; intros [= E]; f_equal; auto.
Qed.

Lemma of_N_inj (n n' : N) : Str.of_N n = Str.of_N n' -> n = n'.
Proof.
  unfold Str.of_N. intros E. apply DecimalN.Unsigned.to_uint_inj.
  now apply digits_of_uint_inj.
Qed.

Lemma of_Z_range (z : Z) : Forall (fun c => 45 <= c <= 57) (Str.of_Z z).
Proof.
  assert (Hn : forall n, Forall (fun c => 45 <= c <= 57) (Str.of_N n)).
  { intros n. eapply Forall_impl; [apply digits_of_uint_range |]. simpl. lia. }
  destruct z; simpl; auto. constructor; [lia | apply Hn].
Qed.

(** Different integers print differently. *)
Lemma of_Z_inj (z z' : Z) : Str.of_Z z = Str.of_Z z' -> z = z'.
Proof.
  assert (Hhead : forall n r, Str.of_N n <> 45 :: r).
  { intros n r E. pose proof (digits_of_uint_range (N.to_uint n)) as Hr.
    unfold Str.of_N in E. rewrite E in Hr. inversion Hr; lia. }
  destruct z as [|p|p], z' as [|q|q]; simpl; intros E;
    try reflexivity;
    try (apply of_N_inj in E; congruence);
    try (now apply Hhead in E); try (symmetry in E; now apply Hhead in E).
  injection E as E. apply of_N_inj in E. congruence.
Qed.

Lemma isspace_printed (c : N) : 45 <= c <= 57 -> isspace c = false.
Proof.
  intros Hc.
  assert (Hall : Forall (fun c => isspace c = false) (map N.of_nat (seq 45 13)))
    by (repeat constructor).
  rewrite Forall_forall in Hall. apply Hall.
  apply (in_range_seq 45 13). lia.
Qed.

Lemma strip_no_space (s : list N) :
  Forall (fun c => isspace c = false) s -> Str.strip s = s.
Proof.
  intros Hs. unfold Str.strip, Str.lstrip, Str.rstrip.
  rewrite (drop_while_none _ _ Hs), drop_while_none, rev_involutive; [reflexivity |].
  apply Forall_forall. intros c Hc. rewrite Forall_forall in Hs. apply Hs.
  apply list_elem_of_In, in_rev. now apply list_elem_of_In.
Qed.

Lemma strip_of_Z (z : Z) : Str.strip (Str.of_Z z) = Str.of_Z z.
Proof.
  apply strip_no_space. eapply Forall_impl; [apply of_Z_range |].
  simpl. intros c Hc. now apply isspace_printed.
Qed.

Section IntegerFlags.
Context `{Unicode}.

Lemma lower_of_Z (z : Z) : lower (Str.of_Z z) = Str.of_Z z.
Proof.
  pose proof (of_Z_range z) as Hr. rewrite lower_simple.
  - induction Hr as [|c s Hc _ IH]; [reflexivity |]. simpl. rewrite IH. f_equal.
    unfold ascii_lower, ascii_isupper. destruct (N.leb_spec 65 c); [lia | reflexivity].
  - apply forallb_forall. intros c Hc. rewrite Forall_forall in Hr.
    apply list_elem_of_In in Hc. specialize (Hr _ Hc).
    unfold simple. destruct (N.ltb_spec c 128); [reflexivity | lia].
Qed.

Lemma of_Z_not_holiday_word (z : Z) : Str.of_Z z ∉ holiday_words.
Proof.
  intros Hin. pose proof (of_Z_range z) as Hr.
  unfold holiday_words in Hin.
  repeat (apply elem_of_cons in Hin as [E | Hin];
          [rewrite E in Hr; apply Forall_cons in Hr as [Hc _]; vm_compute in Hc;
           destruct Hc as [_ Hc]; now apply Hc |]).
  now apply elem_of_nil in Hin.
Qed.

(** X9: an integer cell is a holiday exactly when it is 2, and a boolean
    cell is a holiday exactly when it is true; a missing cell (NaN) is a
    working day. *)
Theorem convert_holiday_flag_of_numbers (z : Z) (b : bool) :
  (convert_holiday_flag (VInt z) = true <-> z = 2%Z)
  /\ convert_holiday_flag (VBool b) = b
  /\ convert_holiday_flag VNaN = false.
Proof.
  split; [| split].
  - rewrite convert_holiday_flag_true_iff. cbn [py_str].
    rewrite strip_of_Z, lower_of_Z. split.
    + intros [E | [_ Hin]].
      * apply of_Z_inj. exact E.
      * now apply of_Z_not_holiday_word in Hin.
    + intros ->. now left.
  - destruct b.
    + apply convert_holiday_flag_true_iff. right. cbn [py_str].
      change (Str.strip (py "True")) with (py "True").
      rewrite lower_simple by reflexivity.
      split; [discriminate | apply (proj1 (bool_decide_eq_true _)); reflexivity].
    + apply not_true_is_false. rewrite convert_holiday_flag_true_iff. cbn [py_str].
      change (Str.strip (py "False")) with (py "False").
      rewrite lower_simple by reflexivity.
      intros [E | [_ Hin]]; [discriminate E |].
      revert Hin. apply (proj1 (bool_decide_eq_false _)). reflexivity.
  - apply not_true_is_false. rewrite convert_holiday_flag_true_iff. cbn [py_str].
    change (Str.strip (py "nan")) with (py "nan").
    rewrite lower_simple by reflexivity.
    intros [E | [_ Hin]]; [discriminate E |].
    revert Hin. apply (proj1 (bool_decide_eq_false _)). reflexivity.
Qed.

(** X10: two source files whose extracted years are positive are written
    to the same output name exactly when they have the same year: no two
    years share a file. *)
Theorem generate_json_filename_by_year (path path' : list N) :
  let year := extract_roc_year_from_filename (os_path.basename path) in
  let year' := extract_roc_year_from_filename (os_path.basename path') in
  (0 < year)%Z -> (0 < year')%Z ->
  (generate_json_filename path = generate_json_filename path' <-> year = year').
Proof.
  intros year year' Hy Hy'.
  rewrite (generate_json_filename_year path Hy), (generate_json_filename_year path' Hy').
  fold year year'. split.
  - intros E. apply app_inv_tail in E. apply of_Z_inj in E. lia.
  - now intros ->.
Qed.

End IntegerFlags.

Lemma generate_json_filename_by_year_witness :
  @generate_json_filename basic_unicode (py "origin/114年行事曆.csv")
  = @generate_json_filename basic_unicode (py "114年中華民國政府行政機關辦公日曆表.csv")
  <-> @extract_roc_year_from_filename basic_unicode
        (os_path.basename (py "origin/114年行事曆.csv"))
      = @extract_roc_year_from_filename basic_unicode
          (os_path.basename (py "114年中華民國政府行政機關辦公日曆表.csv")).
Proof.
  apply (@generate_json_filename_by_year basic_unicode); vm_compute; reflexivity.
Defined.

(** ** Dates already in ISO form *)

Lemma isspace_digit (n : N) : isspace (48 + n mod 10) = false.
Proof.
  pose proof (digit_lt_10 n) as Hk. remember (n mod 10) as k.
  apply isspace_printed. lia.
Qed.

Lemma strip_strftime_ymd (dt : datetime.date) :
  Str.strip (datetime.strftime_ymd dt) = datetime.strftime_ymd dt.
Proof.
  apply strip_no_space. unfold datetime.strftime_ymd, datetime.pad2.
  apply Forall_app. split.
  - eapply Forall_impl; [apply digits_of_uint_range |].
    simpl. intros c Hc. apply isspace_printed. lia.
  - repeat constructor; try apply isspace_digit.
Qed.

Section IsoDates.
Context `{Unicode} `{Pandas}.

Lemma strptime_iso_not_slash (dt : datetime.date) :
  datetime.valid dt = true -> 1000 <= datetime.year dt ->
  datetime.strptime (datetime.strftime_ymd dt) (py "%Y/%m/%d") = None.
Proof.
  intros Hv Hy4. rewrite strptime_simple by apply strftime_ymd_simple.
  destruct (valid_ranges dt Hv) as (Hy & _ & _).
  unfold datetime.strptime.
  change (datetime.compile (py "%Y/%m/%d"))
    with [datetime.Year; datetime.Lit 47; datetime.Month; datetime.Lit 47; datetime.Day].
  unfold datetime.strftime_ymd. rewrite of_N_pad4 by lia.
  rewrite regex_match_year_basic by lia. reflexivity.
Qed.

(** X11: a date of a year from 1000 on, printed by [strftime], is a fixed
    point of [convert_date_format]: converting a converted date changes
    nothing, so the conversion is idempotent on every input that one of the
    five patterns reads as a date of such a year. *)
Theorem convert_date_format_iso_fixed (dt : datetime.date) (date_str : list N) :
  (datetime.valid dt = true -> 1000 <= datetime.year dt ->
   convert_date_format (VStr (datetime.strftime_ymd dt)) = datetime.strftime_ymd dt)
  /\ (forall d,
        try_formats (Str.strip date_str) date_formats = Some d ->
        1000 <= datetime.year d ->
        convert_date_format (VStr (convert_date_format (VStr date_str)))
        = convert_date_format (VStr date_str)).
Proof.
  assert (Hfix : forall d, datetime.valid d = true -> 1000 <= datetime.year d ->
            convert_date_format (VStr (datetime.strftime_ymd d)) = datetime.strftime_ymd d).
  { intros d Hv Hy. unfold convert_date_format. cbn [py_str]. rewrite strip_strftime_ymd.
    assert (Ht : try_formats (datetime.strftime_ymd d) date_formats = Some d).
    { unfold date_formats. cbn [try_formats].
      rewrite (strptime_iso_not_slash d Hv Hy), (strptime_strftime_ymd d Hv Hy).
      reflexivity. }
    now rewrite Ht. }
  split; [apply Hfix |].
  intros d Et Hy. unfold convert_date_format at 2 3. cbn [py_str]. rewrite Et.
  apply Hfix; [| exact Hy]. apply try_formats_some in Et as (k & fmt & _ & Hp & _).
  exact (strptime_valid _ _ _ Hp).
Qed.

End IsoDates.

(** ** Extensions *)

(** [rfind] finds the last occurrence, or nothing. *)
Lemma rfind_cases (c : N) (p : list N) :
  ((c ∉ p) /\ Str.rfind c p = (-1)%Z)
  \/ exists s r, p = s ++ c :: r /\ (c ∉ r) /\ Str.rfind c p = Z.of_nat (length s).
Proof.
  destruct (decide (c ∈ p)) as [Hin | Hout].
  - right. apply list_elem_of_split_r in Hin as (s & r & -> & Hr).
    exists s, r. repeat split; auto. now apply rfind_last.
  - left. split; [exact Hout | now apply rfind_absent].
Qed.

(** X12: [os.path.splitext] cuts a path in two without losing anything:
    the two parts put together are the path, and the extension is either
    empty or starts with a dot and holds neither another dot nor a
    separator. *)
Theorem splitext_lossless (p : list N) :
  fst (os_path.splitext p) ++ snd (os_path.splitext p) = p
  /\ (snd (os_path.splitext p) = []
      \/ exists ext,
           snd (os_path.splitext p) = os_path.extsep :: ext
           /\ (os_path.extsep ∉ ext) /\ (os_path.sep ∉ ext)).
Proof.
  unfold os_path.splitext.
  destruct (Str.rfind os_path.sep p <? Str.rfind os_path.extsep p)%Z eqn:Elt;
    [| split; [apply app_nil_r | now left]].
  destruct (existsb _ _); [| split; [apply app_nil_r | now left]].
  cbn [fst snd]. split; [apply take_drop |]. right.
  apply Z.ltb_lt in Elt.
  destruct (rfind_cases os_path.extsep p) as [[_ Ed] | (s & ext & -> & Hext & Ed)].
  { destruct (rfind_cases os_path.sep p) as [[_ Es] | (? & ? & _ & _ & Es)]; lia. }
  rewrite Ed in *. rewrite Nat2Z.id, drop_app_length.
  exists ext. split; [reflexivity |]. split; [exact Hext |].
  intros Hin. apply list_elem_of_split_r in Hin as (e1 & e2 & -> & He2).
  assert (Es : Str.rfind os_path.sep (s ++ os_path.extsep :: e1 ++ os_path.sep :: e2)
               = Z.of_nat (length (s ++ os_path.extsep :: e1))).
  { rewrite <- (rfind_last os_path.sep (s ++ os_path.extsep :: e1) e2 He2).
    now rewrite <- app_assoc. }
  rewrite Es, length_app in Elt. lia.
Qed.

(** ** Converting files *)

Section ConvertFiles.
Context `{Unicode} `{Pandas}.
Variable read_csv_file : list N -> DataFrame.

Lemma convert_csv_to_json_result (docs_dir csv_file : list N)
    (docs : gmap (list N) (list DayRecord)) :
  convert_csv_to_json read_csv_file docs_dir csv_file docs
  = if validate_csv_structure (read_csv_file csv_file)
    then (true, <[json_path docs_dir csv_file := table_records read_csv_file csv_file]> docs)
    else (false, docs).
Proof.
  destruct (validate_csv_structure (read_csv_file csv_file)) eqn:Ev.
  - now apply convert_csv_to_json_all_rows.
  - unfold convert_csv_to_json. now rewrite convert_csv_to_json_with_eq, Ev.
Qed.

(** X13: converting a file writes at most its own output file, replacing
    what was there with the records of its rows as [iterrows] gives them,
    and converting it again changes nothing more: the output of a file
    depends on that file only. *)
Theorem convert_csv_to_json_idempotent (docs_dir csv_file : list N)
    (docs : gmap (list N) (list DayRecord)) :
  let out := convert_csv_to_json read_csv_file docs_dir csv_file docs in
  convert_csv_to_json read_csv_file docs_dir csv_file (snd out) = out
  /\ (forall path, path <> json_path docs_dir csv_file -> snd out !! path = docs !! path)
  /\ (fst out = true -> snd out !! json_path docs_dir csv_file = Some (table_records read_csv_file csv_file))
  /\ (fst out = false -> snd out = docs).
Proof.
  intros out. subst out. rewrite !convert_csv_to_json_result.
  destruct (validate_csv_structure (read_csv_file csv_file)); cbn [fst snd].
  - split; [now rewrite insert_insert_eq |]. split; [| split; [| discriminate]].
    + intros path Hp. now rewrite lookup_insert_ne.
    + intros _. apply lookup_insert_eq.
  - repeat split; auto. discriminate.
Qed.

Lemma convert_files_count (docs_dir : list N) (csv_files : list (list N))
    (success_count : nat) (docs : gmap (list N) (list DayRecord)) :
  fst (convert_files read_csv_file docs_dir csv_files success_count docs)
  = (success_count + length (filter (accepted read_csv_file) csv_files))%nat.
Proof.
  revert success_count docs.
  induction csv_files as [|f rest IH]; intros success_count docs; cbn [convert_files].
  - cbn. lia.
  - rewrite convert_csv_to_json_result, filter_cons.
    destruct (decide (accepted read_csv_file f)) as [Hy | Hn].
    + unfold accepted in Hy. rewrite Hy, IH. cbn [length]. lia.
    + unfold accepted in Hn. apply not_true_is_false in Hn. rewrite Hn. apply IH.
Qed.

(** A path no accepted file is written to keeps what it held. *)
Lemma convert_files_other (docs_dir : list N) (csv_files : list (list N))
    (success_count : nat) (docs : gmap (list N) (list DayRecord)) (path : list N) :
  (forall f, f ∈ csv_files -> accepted read_csv_file f -> json_path docs_dir f <> path) ->
  snd (convert_files read_csv_file docs_dir csv_files success_count docs) !! path
  = docs !! path.
Proof.
  revert success_count docs.
  induction csv_files as [|f rest IH]; intros success_count docs Hother;
    cbn [convert_files]; [reflexivity |].
  rewrite convert_csv_to_json_result.
  assert (Hrest : forall f', f' ∈ rest -> accepted read_csv_file f' -> json_path docs_dir f' <> path)
    by (intros f' Hin; apply Hother; now apply list_elem_of_further).
  destruct (validate_csv_structure (read_csv_file f)) eqn:Ev.
  - rewrite IH by exact Hrest. apply lookup_insert_ne.
    apply Hother; [apply list_elem_of_here | exact Ev].
  - now rewrite IH.
Qed.

(** The output of an accepted file holds the records of an accepted file
    of the same output path: its own, unless a later one replaced them. *)
Lemma convert_files_written (docs_dir : list N) (csv_files : list (list N))
    (success_count : nat) (docs : gmap (list N) (list DayRecord)) (f : list N) :
  f ∈ csv_files -> accepted read_csv_file f ->
  exists f', f' ∈ csv_files /\ accepted read_csv_file f'
             /\ json_path docs_dir f' = json_path docs_dir f
             /\ snd (convert_files read_csv_file docs_dir csv_files success_count docs)
                  !! json_path docs_dir f
                = Some (table_records read_csv_file f').
Proof.
  revert f success_count docs.
  induction csv_files as [|f0 rest IH]; intros f success_count docs Hin Hacc.
  - now apply elem_of_nil in Hin.
  - cbn [convert_files]. rewrite convert_csv_to_json_result.
    assert (Hlater :
      forall acc d, (exists f1, f1 ∈ rest /\ accepted read_csv_file f1
                                /\ json_path docs_dir f1 = json_path docs_dir f) ->
        exists f', f' ∈ f0 :: rest /\ accepted read_csv_file f'
                   /\ json_path docs_dir f' = json_path docs_dir f
                   /\ snd (convert_files read_csv_file docs_dir rest acc d)
                        !! json_path docs_dir f
                      = Some (table_records read_csv_file f')).
    { intros acc d (f1 & Hin1 & Hacc1 & Hp1).
      destruct (IH f1 acc d Hin1 Hacc1) as (f' & Hin' & Hacc' & Hp' & Hl).
      exists f'. rewrite Hp1 in Hp', Hl.
      split; [now apply list_elem_of_further | auto]. }
    destruct (decide (Exists (fun f1 => accepted read_csv_file f1
                                        /\ json_path docs_dir f1 = json_path docs_dir f)
                        rest)) as [Hex | Hno].
    + apply Exists_exists in Hex as (f1 & Hin1 & Hacc1 & Hp1).
      destruct (validate_csv_structure (read_csv_file f0)); apply Hlater; eauto.
    + apply elem_of_cons in Hin as [-> | Hin];
        [| destruct (validate_csv_structure (read_csv_file f0)); apply Hlater; eauto].
      pose proof Hacc as Hv. unfold accepted in Hv. rewrite Hv.
      exists f0. split; [apply list_elem_of_here |]. split; [exact Hacc |].
      split; [reflexivity |].
      rewrite convert_files_other; [apply lookup_insert_eq |].
      intros f1 Hin1 Hacc1 Hp1. apply Hno. apply Exists_exists. eauto.
Qed.

(** X14: [convert_all] reports the number of staged CSV files as the total
    and, as the successes, the number of those whose table has at least one
    row and four columns; a file that is rejected does not stop the others.
    Without a CSV file it reports (0, 0) and writes nothing. *)
Theorem convert_all_counts (origin_dir docs_dir : list N)
    (listing : option (list (list N))) (docs : gmap (list N) (list DayRecord)) :
  let csv_files := get_csv_files origin_dir listing in
  let out := convert_all read_csv_file origin_dir docs_dir listing docs in
  snd (fst out) = length csv_files
  /\ fst (fst out) = length (filter (accepted read_csv_file) csv_files)
  /\ (fst (fst out) <= snd (fst out))%nat
  /\ (csv_files = [] -> out = ((0, 0)%nat, docs)).
Proof.
  intros csv_files out. subst out. unfold convert_all. fold csv_files.
  destruct csv_files as [|f rest] eqn:Ec; [cbn; repeat split; lia |].
  pose proof (convert_files_count docs_dir (f :: rest) 0 docs) as Hcount.
  destruct (convert_files read_csv_file docs_dir (f :: rest) 0 docs) as [n d].
  cbn [fst snd] in *. subst n. split; [reflexivity |]. split; [reflexivity |].
  split; [apply length_filter | discriminate].
Qed.

(** X15: after [convert_all], the output of every accepted file exists and
    holds the records of an accepted file of the same output name (its own
    unless a later file of the same year replaced them), built from its rows
    as [iterrows] gives them; and a path that is the output of no accepted
    file holds what it held before. *)
Theorem convert_all_outputs (origin_dir docs_dir : list N)
    (listing : option (list (list N))) (docs : gmap (list N) (list DayRecord)) :
  let csv_files := get_csv_files origin_dir listing in
  let out := convert_all read_csv_file origin_dir docs_dir listing docs in
  (forall f, f ∈ csv_files -> accepted read_csv_file f ->
     exists f', f' ∈ csv_files /\ accepted read_csv_file f'
                /\ json_path docs_dir f' = json_path docs_dir f
                /\ snd out !! json_path docs_dir f = Some (table_records read_csv_file f'))
  /\ (forall path,
        (forall f, f ∈ csv_files -> accepted read_csv_file f -> json_path docs_dir f <> path) ->
        snd out !! path = docs !! path).
Proof.
  intros csv_files out. subst out. unfold convert_all. fold csv_files.
  destruct csv_files as [|f0 rest] eqn:Ec.
  - split; [intros f Hin; now apply elem_of_nil in Hin | reflexivity].
  - pose proof (convert_files_written docs_dir (f0 :: rest) 0 docs) as Hw.
    pose proof (convert_files_other docs_dir (f0 :: rest) 0 docs) as Ho.
    destruct (convert_files read_csv_file docs_dir (f0 :: rest) 0 docs) as [n d].
    cbn [fst snd] in *. split; [exact Hw | exact Ho].
Qed.

End ConvertFiles.

(** ** From the staging directory to the converter *)

Section StagedFiles.
Context `{Unicode} `{Pandas}.

Lemma csv_paths_elem (origin_dir : list N) (names : list (list N)) (path : list N) :
  path ∈ csv_paths origin_dir names
  <-> exists filename,
        filename ∈ names /\ Str.endswith (lower filename) (py ".csv") = true
        /\ path = os_path.join origin_dir filename.
Proof.
  induction names as [|f rest IH]; cbn [csv_paths].
  - split; [intros Hin; now apply elem_of_nil in Hin |].
    intros (filename & Hin & _). now apply elem_of_nil in Hin.
  - destruct (Str.endswith (lower f) (py ".csv")) eqn:Ef.
    + rewrite elem_of_cons, IH. split.
      * intros [-> | (filename & Hin & He & ->)].
        -- exists f. split; [apply list_elem_of_here | auto].
        -- exists filename. split; [now apply list_elem_of_further | auto].
      * intros (filename & Hin & He & ->).
        apply elem_of_cons in Hin as [-> | Hin]; [now left | right; eauto].
    + rewrite IH. split.
      * intros (filename & Hin & He & ->).
        exists filename. split; [now apply list_elem_of_further | auto].
      * intros (filename & Hin & He & ->).
        apply elem_of_cons in Hin as [-> | Hin]; [congruence | eauto].
Qed.

Lemma safe_filename_is_simple (filename : list N) :
  forallb simple filename = true -> forallb simple (safe_filename filename) = true.
Proof.
  intros Hs.
  assert (Hk : forallb simple (filter (fun c => keep_char c = true) filename) = true).
  { apply forallb_forall. intros c Hc. rewrite forallb_forall in Hs. apply Hs.
    apply list_elem_of_In in Hc. apply list_elem_of_In.
    now apply list_elem_of_filter in Hc as [_ Hc]. }
  destruct (rstrip_split (filter (fun c => keep_char c = true) filename)) as (ws & E & _).
  rewrite E, forallb_app in Hk. apply andb_true_iff in Hk as [Hn _].
  unfold safe_filename. destruct (Str.endswith _ _); [exact Hn |].
  rewrite forallb_app, Hn. reflexivity.
Qed.

(** X16: a file the crawler staged under a name of ASCII characters and
    ideographs is one of the files [get_csv_files] returns when the staging
    directory lists it: what [download_file] writes, [convert_all] reads. *)
Theorem get_csv_files_finds_staged (origin_dir filename : list N)
    (names : list (list N)) :
  forallb simple filename = true ->
  safe_filename filename ∈ names ->
  file_path origin_dir filename ∈ get_csv_files origin_dir (Some names).
Proof.
  intros Hs Hin. cbn [get_csv_files]. apply csv_paths_elem.
  exists (safe_filename filename). split; [exact Hin |]. split; [| reflexivity].
  rewrite lower_simple by now apply safe_filename_is_simple.
  destruct (safe_filename_csv filename) as [stem E]. rewrite E, map_app.
  apply endswith_suffix. now eexists.
Qed.

(** X17: [get_csv_files] returns nothing when the staging directory does
    not exist; otherwise it returns, in the order of the listing and joined
    to the directory, the listed names whose lower-case form ends with
    [.csv], and only those. *)
Theorem get_csv_files_listing (origin_dir : list N) (names : list (list N)) :
  get_csv_files origin_dir None = []
  /\ get_csv_files origin_dir (Some names)
     = map (os_path.join origin_dir)
           (filter (fun f => Str.endswith (lower f) (py ".csv") = true) names)
  /\ (length (get_csv_files origin_dir (Some names)) <= length names)%nat.
Proof.
  assert (E : get_csv_files origin_dir (Some names)
              = map (os_path.join origin_dir)
                    (filter (fun f => Str.endswith (lower f) (py ".csv") = true) names)).
  { cbn [get_csv_files]. induction names as [|f rest IH]; [reflexivity |].
    cbn [csv_paths]. rewrite filter_cons.
    destruct (decide (Str.endswith (lower f) (py ".csv") = true)) as [Hy | Hn].
    - rewrite Hy, IH. reflexivity.
    - apply not_true_is_false in Hn. now rewrite Hn, IH. }
  split; [reflexivity |]. split; [exact E |].
  rewrite E, length_map. apply length_filter.
Qed.

End StagedFiles.

Lemma get_csv_files_finds_staged_witness :
  @file_path basic_unicode (py "origin") (py "114年 calendar")
  ∈ @get_csv_files basic_unicode (py "origin")
      (Some [py "notes.txt"; py "114年 calendar.csv"]).
Proof.
  apply (@get_csv_files_finds_staged basic_unicode).
  - reflexivity.
  - apply (proj1 (bool_decide_eq_true _)). vm_compute. reflexivity.
Defined.

(** ** The rows the per-row block sees *)

Lemma dtype_eqb_eq (a b : dtype) : dtype_eqb a b = true <-> a = b.
Proof. destruct a, b; simpl; split; congruence. Qed.

(** The rows are cast to floats exactly when every column holds numbers
    and one of them holds floats. *)
Lemma find_common_type_float64 (types : list dtype) :
  find_common_type types = float64
  <-> forallb is_number types = true /\ float64 ∈ types.
Proof.
  destruct types as [|first rest]; cbn [find_common_type].
  { split; [discriminate | intros [_ Hin]; now apply elem_of_nil in Hin]. }
  destruct (forallb (dtype_eqb first) (first :: rest)) eqn:Eall.
  - rewrite forallb_forall in Eall. split.
    + intros ->. split; [| apply list_elem_of_here].
      apply forallb_forall. intros t Ht. apply Eall, dtype_eqb_eq in Ht. now subst t.
    + intros [_ Hin]. apply list_elem_of_In, Eall, dtype_eqb_eq in Hin. exact Hin.
  - destruct (forallb is_number (first :: rest)) eqn:Enum.
    + split; [intros _ | reflexivity]. split; [reflexivity |].
      destruct (decide (float64 ∈ first :: rest)) as [Hin | Hout]; [exact Hin |].
      assert (Hint : forall t, In t (first :: rest) -> t = int64).
      { intros t Ht. rewrite forallb_forall in Enum. specialize (Enum t Ht).
        destruct t; try discriminate; [reflexivity |].
        destruct Hout. now apply list_elem_of_In. }
      assert (Htrue : forallb (dtype_eqb first) (first :: rest) = true).
      { apply forallb_forall. intros t Ht. apply dtype_eqb_eq.
        rewrite (Hint t Ht). apply Hint. now left. }
      congruence.
    + split; [discriminate | intros [? _]; discriminate].
Qed.

Section Cast.
Context `{Pandas}.

Lemma astype_other (t : dtype) (v : pyval) : t <> float64 -> astype t v = v.
Proof. intros Ht. destruct t, v; try reflexivity. congruence. Qed.

Lemma iterrows_lookup (df : DataFrame) (k : nat) (row : list pyval) :
  rows df !! k = Some row ->
  iterrows df !! k = Some (map (astype (find_common_type (dtypes df))) row).
Proof. intros Hk. unfold iterrows. now rewrite list_lookup_fmap, Hk. Qed.

End Cast.

Lemma cell_lookup (i : nat) (default v : pyval) (row : list pyval) :
  row !! i = Some v -> cell i default row = v.
Proof.
  intros Hi. unfold cell. pose proof (lookup_lt_Some _ _ _ Hi) as Hlt.
  destruct (Nat.ltb_spec i (length row)); [| lia].
  apply nth_lookup_Some with (d := default) in Hi. exact Hi.
Qed.

(** ** Numbers as text *)

Lemma strip_printed (s : list N) :
  Forall (fun c => 45 <= c <= 57) s -> Str.strip s = s.
Proof.
  intros Hs. apply strip_no_space. eapply Forall_impl; [exact Hs |].
  simpl. intros c Hc. now apply isspace_printed.
Qed.

Section PrintedNumbers.
Context `{Unicode} `{Pandas}.

Lemma lower_printed (s : list N) :
  Forall (fun c => 45 <= c <= 57) s -> lower s = s.
Proof.
  intros Hr. rewrite lower_simple.
  - induction Hr as [|c s Hc _ IH]; [reflexivity |]. simpl. rewrite IH. f_equal.
    unfold ascii_lower, ascii_isupper. destruct (N.leb_spec 65 c); [lia | reflexivity].
  - apply forallb_forall. intros c Hc. rewrite Forall_forall in Hr.
    apply list_elem_of_In in Hc. specialize (Hr _ Hc).
    unfold simple. destruct (N.ltb_spec c 128); [reflexivity | lia].
Qed.

Lemma printed_not_holiday_word (s : list N) :
  Forall (fun c => 45 <= c <= 57) s -> s ∉ holiday_words.
Proof.
  intros Hr Hin. unfold holiday_words in Hin.
  repeat (apply elem_of_cons in Hin as [E | Hin];
          [rewrite E in Hr; apply Forall_cons in Hr as [Hc _]; vm_compute in Hc;
           destruct Hc as [_ Hc]; now apply Hc |]).
  now apply elem_of_nil in Hin.
Qed.

(** The float of an integer is no holiday flag. *)
Lemma convert_holiday_flag_float (z : Z) :
  (Z.abs z <= 2 ^ 53)%Z -> convert_holiday_flag (VFloat (float_str z)) = false.
Proof.
  intros Hz. apply not_true_is_false. rewrite convert_holiday_flag_true_iff.
  cbn [py_str]. rewrite float_str_exact by exact Hz.
  assert (Hr : Forall (fun c => 45 <= c <= 57) (Str.of_Z z ++ py ".0")).
  { apply Forall_app. split; [apply of_Z_range |].
    change (py ".0") with [46; 48]. repeat (constructor; [lia |]). constructor. }
  rewrite (strip_printed _ Hr), (lower_printed _ Hr).
  intros [E | [_ Hin]]; [| now apply printed_not_holiday_word in Hin].
  apply (f_equal (@rev N)) in E. rewrite rev_app_distr in E. discriminate E.
Qed.

(** X18: the per-row block sees the rows as [iterrows] gives them, one for
    each row of the table.  The rows are cast to floats exactly when every
    column holds numbers and one of them holds floats; otherwise the block
    sees the cells as the table stores them.  In a table cast to floats an
    integer flag reaches the block as a float, and the row is no holiday
    whatever the flag is, 2 included. *)
Theorem iterrows_float_rows (df : DataFrame) :
  length (iterrows df) = length (rows df)
  /\ (find_common_type (dtypes df) = float64
      <-> forallb is_number (dtypes df) = true /\ float64 ∈ dtypes df)
  /\ (find_common_type (dtypes df) <> float64 -> iterrows df = rows df)
  /\ (find_common_type (dtypes df) = float64 ->
      forall k row z,
        rows df !! k = Some row -> row !! 2%nat = Some (VInt z) ->
        exists row',
          iterrows df !! k = Some row'
          /\ row' !! 2%nat = Some (VFloat (float_str z))
          /\ ((Z.abs z <= 2 ^ 53)%Z -> isHoliday (row_record row') = false)).
Proof.
  split; [unfold iterrows; apply length_map |].
  split; [apply find_common_type_float64 |].
  split.
  - intros Ht. unfold iterrows. rewrite <- (map_id (rows df)) at 2.
    apply map_ext. intros row. rewrite <- (map_id row) at 2.
    apply map_ext. intros v. now apply astype_other.
  - intros Ht k row z Hk Hz. exists (map (astype float64) row).
    split; [rewrite <- Ht; now apply iterrows_lookup |]. split.
    + now rewrite list_lookup_fmap, Hz.
    + intros Hsmall. unfold row_record. cbn [isHoliday].
      rewrite (cell_lookup 2 (VInt 0) (VFloat (float_str z))).
      * now apply convert_holiday_flag_float.
      * now rewrite list_lookup_fmap, Hz.
Qed.

End PrintedNumbers.

(** * Properties of the run *)

Section RunProperties.
Import TaiwanCalendarSystem.
Context `{Unicode} `{Pandas} `{WebLibs}.
Variable net : network.
Variable listdir : world -> option (list (list N)).
Variable read_csv_file : world -> list N -> DataFrame.

Lemma execute_crawling_eq (origin_dir : list N) (st : stats) (sys : system) :
  let out := crawl net target_url origin_dir (staging sys) in
  execute_crawling net origin_dir st sys
  = ((0 <? fst (fst out))%nat,
     mkstats (fst (fst out)) (snd (fst out))
             (convert_success_count st) (convert_total_count st)
             (errors st
              ++ if (0 <? fst (fst out))%nat then []
                 else [py "爬蟲階段：沒有成功下載任何檔案"]),
     mksystem (snd out) (docs sys)).
Proof.
  intros out. subst out. unfold execute_crawling.
  destruct (crawl net target_url origin_dir (staging sys)) as [[s t] w]. cbn [fst snd].
  destruct (0 <? s)%nat; [now rewrite app_nil_r | reflexivity].
Qed.

Lemma execute_conversion_eq (origin_dir docs_dir : list N) (st : stats) (sys : system) :
  let out :=
    convert_all (read_csv_file (staging sys)) origin_dir docs_dir
                (listdir (staging sys)) (docs sys) in
  execute_conversion listdir read_csv_file origin_dir docs_dir st sys
  = ((0 <? fst (fst out))%nat,
     mkstats (crawl_success_count st) (crawl_total_count st)
             (fst (fst out)) (snd (fst out))
             (errors st
              ++ if (0 <? fst (fst out))%nat then []
                 else [py "轉換階段：沒有成功轉換任何檔案"]),
     mksystem (staging sys) (snd out)).
Proof.
  intros out. subst out. unfold execute_conversion.
  destruct (convert_all _ _ _ _ _) as [[s t] d]. cbn [fst snd].
  destruct (0 <? s)%nat; [now rewrite app_nil_r | reflexivity].
Qed.

(** X19: [run] succeeds exactly when the environment is ready, the error
    list it starts with is empty, the crawl downloaded at least one file and
    the conversion converted at least one.  When the environment is ready
    the conversion is run on the staging directory the crawl left, also when
    the crawl failed; when it is not, nothing is fetched or written. *)
Theorem run_success (env : environment) (origin_dir docs_dir : list N) (st : stats)
    (sys : system) :
  let crawled := crawl net target_url origin_dir (staging sys) in
  let converted :=
    convert_all (read_csv_file (snd crawled)) origin_dir docs_dir
                (listdir (snd crawled)) (docs sys) in
  let out := run net listdir read_csv_file env origin_dir docs_dir st sys in
  (fst (fst out) = true
   <-> env = EnvReady /\ errors st = []
       /\ (0 < fst (fst crawled))%nat /\ (0 < fst (fst converted))%nat)
  /\ (env = EnvReady -> snd out = mksystem (snd crawled) (snd converted))
  /\ (env <> EnvReady -> fst (fst out) = false /\ snd out = sys).
Proof.
  intros crawled converted out. subst out. unfold run.
  destruct env as [| |message]; cbn [check_environment negb].
  - pose proof (execute_crawling_eq origin_dir st sys) as Ec. cbv zeta in Ec.
    fold crawled in Ec. rewrite Ec. clear Ec.
    pose proof (execute_conversion_eq origin_dir docs_dir
                  (mkstats (fst (fst crawled)) (snd (fst crawled))
                     (convert_success_count st) (convert_total_count st)
                     (errors st
                      ++ if (0 <? fst (fst crawled))%nat then []
                         else [py "爬蟲階段：沒有成功下載任何檔案"]))
                  (mksystem (snd crawled) (docs sys))) as Ev.
    cbv zeta in Ev. cbn [staging docs] in Ev. fold converted in Ev. rewrite Ev. clear Ev.
    cbn [fst snd]. split; [| split; [reflexivity | congruence]].
    unfold overall_success.
    cbn [errors crawl_success_count convert_success_count].
    rewrite !andb_true_iff, Nat.eqb_eq, !Nat.ltb_lt, !length_app.
    split.
    + intros [[Hlen Hc] Hv].
      destruct (errors st); [| cbn [length] in Hlen; lia]. auto.
    + intros (_ & He & Hc & Hv). rewrite He.
      apply Nat.ltb_lt in Hc as Hc', Hv as Hv'. rewrite Hc', Hv'.
      cbn [length Nat.add]. auto.
  - cbn [fst snd]. split; [| split; [discriminate | auto]].
    split; [discriminate | intros [? _]; discriminate].
  - cbn [fst snd]. split; [| split; [discriminate | auto]].
    split; [discriminate | intros [? _]; discriminate].
Qed.

(** X20: a run never removes an error from the list: the errors it starts
    with are a prefix of those it ends with, and it adds two at most.  So
    a system that has recorded an error reports failure on every later
    run. *)
Theorem run_keeps_errors (env : environment) (origin_dir docs_dir : list N) (st : stats)
    (sys : system) :
  let out := run net listdir read_csv_file env origin_dir docs_dir st sys in
  errors st `prefix_of` errors (snd (fst out))
  /\ (length (errors (snd (fst out))) <= length (errors st) + 2)%nat
  /\ (errors st <> [] -> fst (fst out) = false).
Proof.
  intros out. subst out. unfold run.
  destruct env as [| |message]; cbn [check_environment negb].
  - pose proof (execute_crawling_eq origin_dir st sys) as Ec. cbv zeta in Ec.
    rewrite Ec. clear Ec.
    set (crawled := crawl net target_url origin_dir (staging sys)).
    set (st1 := mkstats _ _ _ _ _).
    pose proof (execute_conversion_eq origin_dir docs_dir st1
                  (mksystem (snd crawled) (docs sys))) as Ev.
    cbv zeta in Ev. rewrite Ev. clear Ev. cbn [fst snd errors st1].
    split; [| split].
    + rewrite <- app_assoc. now eexists.
    + rewrite !length_app.
      destruct (0 <? _)%nat; destruct (0 <? _)%nat; cbn [length]; lia.
    + intros Hne. unfold overall_success. cbn [errors]. rewrite !length_app.
      destruct (errors st) as [|e es]; [congruence |].
      cbn [length Nat.add Nat.eqb andb]. reflexivity.
  - cbn [fst snd]. split; [reflexivity |]. split; [lia | reflexivity].
  - cbn [fst snd add_error errors]. split; [now eexists |].
    split; [rewrite length_app; cbn [length]; lia | reflexivity].
Qed.

End RunProperties.
